(** * TNEA choice filling server: the choice-ranking computation

    A shallow embedding of [src/src/index.ts] (class [TNEAMCPServer]):
    the session fields, the tool handlers that read or replace them, and
    [generateSelectionPayload], the ranking of (college, course) seats.

    Conventions of the embedding.
    - Values read from parsed JSON (the seat matrix of the portal, the
      cutoff file) are [jsval]: a missing field reads as [JUndefined], a
      JSON number is a finite decimal.  Fields the source uses at their
      declared TypeScript type without converting them ([colName],
      [branCode], [_id], [brc], ...) are strings.
    - A run-time number is [number]: NaN, an infinity, or a finite value.
      Finite values are exact decimals; the rounding and the range of IEEE
      doubles are not represented, and [-0] is the same value as [0]
      (every operation the program applies treats the two alike).
    - Strings are byte strings; [toLowerCase] lowers the ASCII letters.
    - Network and file reads are arguments of the handlers that perform
      them: the handler is a function of what the outside world answered. *)

From Stdlib Require Import Bool Ascii String List ZArith QArith Lia Lqa.
From Stdlib Require Import Sorting.Sorted DecimalString.
From stdpp Require Import base gmap sets strings.
Import ListNotations.

Local Open Scope string_scope.
Local Open Scope list_scope.
Close Scope Q_scope.

(** ** Run-time numbers *)

Module Num.

(** [pow10 k] is 10^k as a positive number. *)
Fixpoint pow10 (k : nat) : positive :=
  match k with
  | O => 1%positive
  | S k' => (10 * pow10 k')%positive
  end.

(** A finite number: [mant / 10^scale]. *)
Record decimal := Dec { mant : Z; scale : nat }.

Definition toQ (d : decimal) : Q := Qmake (mant d) (pow10 (scale d)).

Definition of_Z (z : Z) : decimal := Dec z 0.

(** Exact difference of two finite values. *)
Definition dec_sub (a b : decimal) : decimal :=
  Dec (mant a * Zpos (pow10 (scale b)) - mant b * Zpos (pow10 (scale a)))
      (scale a + scale b).

Definition dec_compare (a b : decimal) : comparison :=
  Qcompare (toQ a) (toQ b).

Definition dec_is_zero (d : decimal) : bool := Z.eqb (mant d) 0.

Inductive number :=
| NaN
| Inf (negative : bool)
| Fin (d : decimal).

Definition isNaN (x : number) : bool :=
  match x with NaN => true | _ => false end.

(** ToBoolean on a number: NaN and zero are falsy. *)
Definition truthy (x : number) : bool :=
  match x with
  | NaN => false
  | Inf _ => true
  | Fin d => negb (dec_is_zero d)
  end.

(** [a || b] on numbers. *)
Definition or_else (a b : number) : number := if truthy a then a else b.

(** [a - b]. *)
Definition sub (a b : number) : number :=
  match a, b with
  | NaN, _ | _, NaN => NaN
  | Inf s, Inf t => if Bool.eqb s t then NaN else Inf s
  | Inf s, Fin _ => Inf s
  | Fin _, Inf t => Inf (negb t)
  | Fin x, Fin y => Fin (dec_sub x y)
  end.

(** The relational comparison of two numbers; [None] when one is NaN. *)
Definition compare (a b : number) : option comparison :=
  match a, b with
  | NaN, _ | _, NaN => None
  | Inf s, Inf t =>
      Some (if Bool.eqb s t then Eq else if s then Lt else Gt)
  | Inf s, Fin _ => Some (if s then Lt else Gt)
  | Fin _, Inf t => Some (if t then Gt else Lt)
  | Fin x, Fin y => Some (dec_compare x y)
  end.

(** [a > b], [a <= b], [a >= b] and [a == b] as JavaScript evaluates them. *)
Definition gt (a b : number) : bool :=
  match compare a b with Some Gt => true | _ => false end.

Definition le (a b : number) : bool :=
  match compare a b with Some Lt | Some Eq => true | _ => false end.

Definition ge (a b : number) : bool :=
  match compare a b with Some Gt | Some Eq => true | _ => false end.

Definition eqn (a b : number) : bool :=
  match compare a b with Some Eq => true | _ => false end.

Definition zero : number := Fin (of_Z 0).

End Num.

Export Num(number, NaN, Inf, Fin, decimal, Dec).

(** ** Values and built-in functions of the language *)

Module JS.

(** A value read from a field of a parsed JSON record: a scalar, or
    [undefined] for a field that the record does not have. *)
Inductive jsval :=
| JUndefined
| JNull
| JBool (b : bool)
| JNum (d : decimal)
| JStr (s : string).

(** [typeof v === 'number'] *)
Definition is_number (v : jsval) : bool :=
  match v with JNum _ => true | _ => false end.

(** *** Number to string (Number::toString, radix 10) *)

Definition digits_of_pos (p : positive) : list ascii :=
  list_ascii_of_string (NilEmpty.string_of_uint (Pos.to_uint p)).

Definition zero_char : ascii := "0"%char.

Fixpoint strip_zeros (l : list ascii) : list ascii * nat :=
  match l with
  | c :: l' =>
      if Ascii.eqb c zero_char
      then let '(r, n) := strip_zeros l' in (r, S n)
      else (l, O)
  | [] => ([], O)
  end.

(** The significant digits [s] (no trailing zero) and the exponent [n] with
    [p / 10^sc = 0.s * 10^n]. *)
Definition digits_and_point (p : positive) (sc : nat) : list ascii * Z :=
  let '(r, z) := strip_zeros (rev (digits_of_pos p)) in
  let s := rev r in
  (s, Z.of_nat (List.length s) + Z.of_nat z - Z.of_nat sc)%Z.

Definition string_of_Z (z : Z) : string :=
  match z with
  | Z0 => "0"
  | Zpos p => NilEmpty.string_of_uint (Pos.to_uint p)
  | Zneg p => "-" ++ NilEmpty.string_of_uint (Pos.to_uint p)
  end.

Definition exponent_suffix (n : Z) : string :=
  "e" ++ (if (0 <=? n - 1)%Z then "+" else "-") ++ string_of_Z (Z.abs (n - 1)).

Definition pos_to_string (p : positive) (sc : nat) : string :=
  let '(s, n) := digits_and_point p sc in
  let k := Z.of_nat (List.length s) in
  if ((k <=? n) && (n <=? 21))%Z then
    string_of_list_ascii (s ++ repeat zero_char (Z.to_nat (n - k)))
  else if ((0 <? n) && (n <=? 21))%Z then
    string_of_list_ascii
      (firstn (Z.to_nat n) s ++ "."%char :: skipn (Z.to_nat n) s)
  else if ((-6 <? n) && (n <=? 0))%Z then
    string_of_list_ascii
      ("0"%char :: "."%char :: repeat zero_char (Z.to_nat (- n)) ++ s)
  else
    match s with
    | [d] => string_of_list_ascii [d] ++ exponent_suffix n
    | d :: ds => string_of_list_ascii (d :: "."%char :: ds) ++ exponent_suffix n
    | [] => "0"
    end.

Definition dec_to_string (d : decimal) : string :=
  match Num.mant d with
  | Z0 => "0"
  | Zpos p => pos_to_string p (Num.scale d)
  | Zneg p => "-" ++ pos_to_string p (Num.scale d)
  end.

Definition number_to_string (x : number) : string :=
  match x with
  | NaN => "NaN"
  | Inf false => "Infinity"
  | Inf true => "-Infinity"
  | Fin d => dec_to_string d
  end.

(** [String(v)] *)
Definition to_String (v : jsval) : string :=
  match v with
  | JUndefined => "undefined"
  | JNull => "null"
  | JBool true => "true"
  | JBool false => "false"
  | JNum d => dec_to_string d
  | JStr s => s
  end.

(** *** parseFloat *)

Definition is_space (c : ascii) : bool :=
  let n := nat_of_ascii c in
  ((9 <=? n) && (n <=? 13))%nat || (n =? 32)%nat.

Fixpoint trim_start (l : list ascii) : list ascii :=
  match l with
  | c :: l' => if is_space c then trim_start l' else l
  | [] => []
  end.

Definition digit_value (c : ascii) : option Z :=
  let n := nat_of_ascii c in
  if ((48 <=? n) && (n <=? 57))%nat then Some (Z.of_nat (n - 48)) else None.

(** Reads the longest run of digits: its value continuing [acc], how many
    digits were read, and the rest of the input. *)
Fixpoint read_digits (acc : Z) (cnt : nat) (l : list ascii)
  : Z * nat * list ascii :=
  match l with
  | c :: l' =>
      match digit_value c with
      | Some v => read_digits (10 * acc + v) (S cnt) l'
      | None => (acc, cnt, l)
      end
  | [] => (acc, cnt, [])
  end.

Definition read_sign (l : list ascii) : bool * list ascii :=
  match l with
  | "-"%char :: l' => (true, l')
  | "+"%char :: l' => (false, l')
  | _ => (false, l)
  end.

(** The exponent part [e[+-]digits], when the input continues with one. *)
Definition read_exponent (l : list ascii) : Z :=
  match l with
  | c :: l' =>
      if Ascii.eqb c "e"%char || Ascii.eqb c "E"%char then
        let '(neg, l2) := read_sign l' in
        let '(v, cnt, _) := read_digits 0 0 l2 in
        match cnt with
        | O => 0%Z
        | S _ => if neg then (- v)%Z else v
        end
      else 0%Z
  | [] => 0%Z
  end.

Fixpoint starts_with (p l : list ascii) : bool :=
  match p, l with
  | [], _ => true
  | a :: p', b :: l' => Ascii.eqb a b && starts_with p' l'
  | _ :: _, [] => false
  end.

(** The value [m * 10^x] as a decimal. *)
Definition scaled (m x : Z) : decimal :=
  if (0 <=? x)%Z then Dec (m * 10 ^ x) 0 else Dec m (Z.to_nat (- x)).

(** [parseFloat(s)]: the longest prefix of the trimmed input that is a
    decimal literal, NaN if there is none. *)
Definition parseFloat (s : string) : number :=
  let '(neg, l) := read_sign (trim_start (list_ascii_of_string s)) in
  if starts_with (list_ascii_of_string "Infinity") l then Inf neg
  else
    let '(ip, icnt, l1) := read_digits 0 0 l in
    let '(m, fcnt, l2) :=
      match l1 with
      | "."%char :: l1' => read_digits ip 0 l1'
      | _ => (ip, O, l1)
      end in
    match (icnt + fcnt)%nat with
    | O => NaN
    | S _ =>
        let x := (read_exponent l2 - Z.of_nat fcnt)%Z in
        Fin (scaled (if neg then (- m)%Z else m) x)
    end.

(** *** Strings *)

Definition lower_char (c : ascii) : ascii :=
  let n := nat_of_ascii c in
  if ((65 <=? n) && (n <=? 90))%nat then ascii_of_nat (n + 32) else c.

Fixpoint toLowerCase (s : string) : string :=
  match s with
  | EmptyString => EmptyString
  | String c s' => String (lower_char c) (toLowerCase s')
  end.

(** [s.includes(pat)] *)
Fixpoint includes (s pat : string) : bool :=
  String.prefix pat s ||
  match s with
  | EmptyString => false
  | String _ s' => includes s' pat
  end.

End JS.

Export JS(jsval, JUndefined, JNull, JBool, JNum, JStr).


(** ** Data model (the interfaces of index.ts) *)

Module SeatData.

Record t := mk {
  _id : string;
  feeCode : string;
  allotSeq : jsval;
  colCode : jsval;
  colName : string;
  branCode : string;
  branName : string;
  OC : jsval;
  BCM : jsval;
  BC : jsval;
  MBC : jsval;
  SCA : jsval;
  SC : jsval;
  ST : jsval
}.

(** [seat[key]]: the property of the record named by a computed key. *)
Definition get (seat : t) (key : string) : jsval :=
  if String.eqb key "_id" then JStr (_id seat)
  else if String.eqb key "feeCode" then JStr (feeCode seat)
  else if String.eqb key "allotSeq" then allotSeq seat
  else if String.eqb key "colCode" then colCode seat
  else if String.eqb key "colName" then JStr (colName seat)
  else if String.eqb key "branCode" then JStr (branCode seat)
  else if String.eqb key "branName" then JStr (branName seat)
  else if String.eqb key "OC" then OC seat
  else if String.eqb key "BCM" then BCM seat
  else if String.eqb key "BC" then BC seat
  else if String.eqb key "MBC" then MBC seat
  else if String.eqb key "SCA" then SCA seat
  else if String.eqb key "SC" then SC seat
  else if String.eqb key "ST" then ST seat
  else JUndefined.

End SeatData.

Module CutoffData.

Record t := mk {
  _id : string;
  coc : jsval;
  con : string;
  brc : string;
  brn : string;
  code : string;
  OC : jsval;
  BC : jsval;
  BCM : jsval;
  MBC : jsval;
  SC : jsval;
  SCA : jsval;
  ST : jsval
}.

(** [c[key]] *)
Definition get (c : t) (key : string) : jsval :=
  if String.eqb key "_id" then JStr (_id c)
  else if String.eqb key "coc" then coc c
  else if String.eqb key "con" then JStr (con c)
  else if String.eqb key "brc" then JStr (brc c)
  else if String.eqb key "brn" then JStr (brn c)
  else if String.eqb key "code" then JStr (code c)
  else if String.eqb key "OC" then OC c
  else if String.eqb key "BC" then BC c
  else if String.eqb key "BCM" then BCM c
  else if String.eqb key "MBC" then MBC c
  else if String.eqb key "SC" then SC c
  else if String.eqb key "SCA" then SCA c
  else if String.eqb key "ST" then ST c
  else JUndefined.

End CutoffData.

Module Course.

Record t := mk {
  branCode : string;
  branName : string
}.

End Course.

Record ValidSelection := mkValidSelection {
  id : string;
  college : string;
  branch : string;
  cutoff : number
}.

(** An element of [reference] in the result of the ranking. *)
Record Reference := mkReference {
  ref_college : string;
  ref_branch : string;
  ref_cutoff : number
}.

Record Payload := mkPayload {
  selections : list string;
  reference : list Reference
}.

(** The fields of a [TNEAMCPServer] instance that the tools read and write. *)
Record Session := mkSession {
  sessionId : option string;
  seatMatrix : list SeatData.t;
  cutoffData : list CutoffData.t;
  preferredCourses : list Course.t
}.

(** ** Array.prototype.sort

    The sort is stable (ECMAScript 2019; the README asks for Node 16 or
    later).  [comparefn x y > 0] moves [y] in front of [x]; a result that is
    zero, negative or NaN leaves the two in their order.  The function below
    inserts each item, from the last to the first, in front of the sorted
    rest and moves it behind the items that [comparefn] puts before it. *)

Section Sort.

Context {A : Type} (comparefn : A -> A -> number).

Fixpoint sort_insert (x : A) (l : list A) : list A :=
  match l with
  | [] => [x]
  | y :: l' =>
      if Num.gt (comparefn x y) Num.zero
      then y :: sort_insert x l'
      else x :: y :: l'
  end.

Fixpoint sort (l : list A) : list A :=
  match l with
  | [] => []
  | x :: l' => sort_insert x (sort l')
  end.

End Sort.

(** ** generateSelectionPayload *)

Module Ranker.

(** The locals of the loop over the seat matrix. *)
Record Scan := mkScan {
  validSelections : list ValidSelection;
  unMatched : nat;
  withoutCutoff : list string
}.

Definition normalize (str : string) : string := JS.toLowerCase str.

(** [dists.some(dist => normalize(name).includes(normalize(dist)))] *)
Definition in_some_district (dists : list string) (name : string) : bool :=
  existsb (fun dist => JS.includes (normalize name) (normalize dist)) dists.

Section WithSession.

Variable this : Session.

Definition allowedBranchCodes : gset string :=
  list_to_set (map Course.branCode (preferredCourses this)).

(** The first lookup: same college code (as strings) and same course. *)
Definition exact_cutoff (seat : SeatData.t) : option CutoffData.t :=
  find (fun c =>
          String.eqb (JS.to_String (CutoffData.coc c))
                     (JS.to_String (SeatData.colCode seat))
          && String.eqb (CutoffData.brc c) (SeatData.branCode seat))
       (cutoffData this).

(** The second lookup: same college code and the course "CS". *)
Definition fallback_cutoff (seat : SeatData.t) : option CutoffData.t :=
  find (fun c =>
          String.eqb (JS.to_String (CutoffData.coc c))
                     (JS.to_String (SeatData.colCode seat))
          && String.eqb (CutoffData.brc c) "CS")
       (cutoffData this).

(** [matchingCutoff] after both lookups. *)
Definition matchingCutoff (seat : SeatData.t) : option CutoffData.t :=
  match exact_cutoff seat with
  | Some c => Some c
  | None => fallback_cutoff seat
  end.

(** [parseFloat(String(c[category])) || parseFloat(String(c.OC))] *)
Definition cutoffScore (category : string) (c : CutoffData.t) : number :=
  Num.or_else (JS.parseFloat (JS.to_String (CutoffData.get c category)))
              (JS.parseFloat (JS.to_String (CutoffData.OC c))).

(** [typeof categorySeats !== 'number' || categorySeats <= 0] *)
Definition no_seats (categorySeats : jsval) : bool :=
  match categorySeats with
  | JNum d => Num.le (Fin d) Num.zero
  | _ => true
  end.

(** One iteration of [for (const seat of this.seatMatrix)]. *)
Definition scan_seat (category : string) (st : Scan) (seat : SeatData.t) : Scan :=
  let categorySeats := SeatData.get seat category in
  if negb (bool_decide (SeatData.branCode seat ∈ allowedBranchCodes)) then st
  else if no_seats categorySeats then st
  else
    match matchingCutoff seat with
    | Some c =>
        let score := cutoffScore category c in
        if Num.isNaN score then
          if negb (existsb (String.eqb (SeatData.colName seat)) (withoutCutoff st))
          then mkScan (validSelections st) (unMatched st)
                      (withoutCutoff st ++ [SeatData.colName seat])
          else st
        else
          mkScan (validSelections st
                    ++ [mkValidSelection (SeatData._id seat) (SeatData.colName seat)
                                         (SeatData.branName seat) score])
                 (unMatched st) (withoutCutoff st)
    | None => mkScan (validSelections st) (S (unMatched st)) (withoutCutoff st)
    end.

Definition scan (category : string) : Scan :=
  fold_left (scan_seat category) (seatMatrix this) (mkScan [] 0 []).

(** [(a, b) => b.cutoff - a.cutoff] *)
Definition by_cutoff_desc (a b : ValidSelection) : number :=
  Num.sub (cutoff b) (cutoff a).

(** One iteration of [for (const item of filteredByDistrict)], on the pair
    ([topPreferredHighCutoff], [others]). *)
Definition place (topPrefDist : list string) (minCutoff : number)
    (groups : list ValidSelection * list ValidSelection) (item : ValidSelection)
  : list ValidSelection * list ValidSelection :=
  let isTopDist := in_some_district topPrefDist (college item) in
  if isTopDist && Num.gt (cutoff item) minCutoff
  then (fst groups ++ [item], snd groups)
  else (fst groups, snd groups ++ [item]).

Definition sorted (category : string) : list ValidSelection :=
  sort by_cutoff_desc (validSelections (scan category)).

Definition filteredByDistrict (districtChoices : list string) (category : string)
  : list ValidSelection :=
  List.filter (fun item => in_some_district districtChoices (college item))
              (sorted category).

(** The pair ([topPreferredHighCutoff], [others]) after the second loop. *)
Definition groups (districtChoices topPrefDist : list string)
    (minCutoff : number) (category : string)
  : list ValidSelection * list ValidSelection :=
  fold_left (place topPrefDist minCutoff)
            (filteredByDistrict districtChoices category) ([], []).

Definition topPreferredHighCutoff (districtChoices topPrefDist : list string)
    (minCutoff : number) (category : string) : list ValidSelection :=
  fst (groups districtChoices topPrefDist minCutoff category).

Definition others (districtChoices topPrefDist : list string)
    (minCutoff : number) (category : string) : list ValidSelection :=
  snd (groups districtChoices topPrefDist minCutoff category).

Definition finalSorted (districtChoices topPrefDist : list string)
    (minCutoff : number) (category : string) : list ValidSelection :=
  topPreferredHighCutoff districtChoices topPrefDist minCutoff category
  ++ others districtChoices topPrefDist minCutoff category.

Definition generateSelectionPayload (districtChoices topPrefDist : list string)
    (minCutoff : number) (category : string) : Payload :=
  let final := finalSorted districtChoices topPrefDist minCutoff category in
  mkPayload (map id final)
            (map (fun item => mkReference (college item) (branch item) (cutoff item))
                 final).

(** *** Notions used to state the properties of the ranking *)

(** What one iteration pushes on [validSelections], if anything. *)
Definition candidate (category : string) (seat : SeatData.t)
  : option ValidSelection :=
  if negb (bool_decide (SeatData.branCode seat ∈ allowedBranchCodes)) then None
  else if no_seats (SeatData.get seat category) then None
  else
    match matchingCutoff seat with
    | Some c =>
        let score := cutoffScore category c in
        if Num.isNaN score then None
        else Some (mkValidSelection (SeatData._id seat) (SeatData.colName seat)
                                    (SeatData.branName seat) score)
    | None => None
    end.

(** The candidates of a list of seats, in the order of the seats. *)
Definition candidates (category : string) (seats : list SeatData.t)
  : list ValidSelection :=
  flat_map (fun seat => match candidate category seat with
                        | Some v => [v]
                        | None => []
                        end) seats.

End WithSession.

(** The test that puts an item in [topPreferredHighCutoff] (Group A). *)
Definition in_group_A (topPrefDist : list string) (minCutoff : number)
    (item : ValidSelection) : bool :=
  in_some_district topPrefDist (college item) && Num.gt (cutoff item) minCutoff.

Definition to_reference (item : ValidSelection) : Reference :=
  mkReference (college item) (branch item) (cutoff item).

(** [a.cutoff >= b.cutoff]: [a] may stand before [b] in a descending list. *)
Definition cutoff_ge (a b : ValidSelection) : Prop :=
  Num.ge (cutoff a) (cutoff b) = true.

(** The score of a selection is a number, not NaN. *)
Definition has_score (v : ValidSelection) : Prop := Num.isNaN (cutoff v) = false.

(** The items of a list whose cutoff equals [c]. *)
Definition with_cutoff (c : number) (l : list ValidSelection)
  : list ValidSelection :=
  List.filter (fun v => Num.eqn (cutoff v) c) l.

(** An occurrence of [x] stands before an occurrence of [y] in [l]. *)
Definition precedes {A : Type} (x y : A) (l : list A) : Prop :=
  exists l1 l2 l3, l = l1 ++ x :: l2 ++ y :: l3.

(** The college code of a cutoff record is that of the seat, as strings. *)
Definition same_college (seat : SeatData.t) (c : CutoffData.t) : Prop :=
  JS.to_String (CutoffData.coc c) = JS.to_String (SeatData.colCode seat).

End Ranker.

(** ** The tool handlers *)

Module Server.

(** What a handler throws: [new Error(message)], or an [McpError] with the
    code InvalidParams, MethodNotFound or InternalError.  The request
    handler wraps whatever a tool threw in an InternalError that names the
    tool. *)
Inductive Error :=
| Err (message : string)
| InvalidParams (message : string)
| MethodNotFound (name : string)
| InternalError (tool : string) (cause : Error).

Inductive Outcome (A : Type) :=
| Return (a : A)
| Throw (e : Error).

Arguments Return {A} a.
Arguments Throw {A} e.

(** A method of the server: it runs on the session fields, may replace
    them, and returns or throws. *)
Definition M (A : Type) : Type := Session -> Outcome A * Session.

Definition ret {A} (a : A) : M A := fun s => (Return a, s).

Definition bind {A B} (m : M A) (k : A -> M B) : M B :=
  fun s =>
    match m s with
    | (Return a, s') => k a s'
    | (Throw e, s') => (Throw e, s')
    end.

Definition throw {A} (e : Error) : M A := fun s => (Throw e, s).

(** [try { m } catch (error) { h error }]: what [m] assigned before it
    threw stays assigned. *)
Definition try_catch {A} (m : M A) (h : Error -> M A) : M A :=
  fun s =>
    match m s with
    | (Return a, s') => (Return a, s')
    | (Throw e, s') => h e s'
    end.

Definition this : M Session := fun s => (Return s, s).

Definition assign_sessionId (v : string) : M unit :=
  fun s => (Return tt,
            mkSession (Some v) (seatMatrix s) (cutoffData s) (preferredCourses s)).

Definition assign_seatMatrix (v : list SeatData.t) : M unit :=
  fun s => (Return tt,
            mkSession (sessionId s) v (cutoffData s) (preferredCourses s)).

Definition assign_cutoffData (v : list CutoffData.t) : M unit :=
  fun s => (Return tt,
            mkSession (sessionId s) (seatMatrix s) v (preferredCourses s)).

Definition assign_preferredCourses (v : list Course.t) : M unit :=
  fun s => (Return tt,
            mkSession (sessionId s) (seatMatrix s) (cutoffData s) v).

(** What a network or file operation gave: its value, or the message of the
    error it raised. *)
Definition Answer (A : Type) : Type := (string + A)%type.

Definition await {A} (answer : Answer A) : M A :=
  match answer with
  | inr a => ret a
  | inl message => throw (Err message)
  end.

Declare Scope server_scope.
Delimit Scope server_scope with server.

Notation "x <- m ;; k" := (bind m (fun x => k))
  (at level 100, m at next level, right associativity) : server_scope.
Notation "m ;; k" := (bind m (fun _ => k))
  (at level 100, right associativity) : server_scope.

Local Open Scope server_scope.

Record LoginResponse := mkLoginResponse {
  status : string;
  login_sessionId : string;
  userId : string;
  name : string
}.

(** An argument of a tool call that the handler tests before use. *)
Inductive ArgValue :=
| Missing
| Scalar (v : jsval)
| StringArray (items : list string).

(** [!!v] *)
Definition arg_truthy (v : ArgValue) : bool :=
  match v with
  | Missing => false
  | Scalar JUndefined | Scalar JNull => false
  | Scalar (JBool b) => b
  | Scalar (JNum d) => negb (Num.dec_is_zero d)
  | Scalar (JStr s) => negb (String.eqb s "")
  | StringArray _ => true
  end.

(** [Array.isArray(v)] *)
Definition isArray (v : ArgValue) : bool :=
  match v with StringArray _ => true | _ => false end.

Definition array_items (v : ArgValue) : list string :=
  match v with StringArray items => items | _ => [] end.

Record GenerateChoicesArgs := mkArgs {
  districtChoices : ArgValue;
  topPrefDist : option (list string);
  minCutoff : option number;
  category : option string
}.

(** What the text of a reply is built from: the counts, names and errors it
    shows.  The reply to [generate_choices] shows the number of selections,
    the first ten references and how many more there are; the reply to the
    fetch of the seats also shows how many seats have a positive count,
    which is left out here. *)
Inductive Reply :=
| LoginSucceeded (name sessionId : string)
| LoginFailed (e : Error)
| SeatsFetched (total : nat)
| SeatsFailed (e : Error)
| CutoffLoaded (records : nat)
| CutoffFailed (e : Error)
| CoursesLoaded (courses : nat)
| CoursesFailed (e : Error)
| Generated (count : nat) (top10 : list Reference) (more : option nat)
| Submitted (count : nat)
| SubmitFailed (e : Error)
| SessionStatus (active : bool) (seats cutoffs courses : nat).

(** [!this.sessionId] *)
Definition not_logged_in (s : Session) : bool :=
  match sessionId s with
  | None => true
  | Some v => String.eqb v ""
  end.

Definition handleLogin (answer : Answer LoginResponse) : M Reply :=
  try_catch
    (data <- await answer ;;
     if negb (String.eqb (login_sessionId data) "") then
       assign_sessionId (login_sessionId data) ;;
       ret (LoginSucceeded (name data) (login_sessionId data))
     else throw (Err "Invalid login credentials"))
    (fun error => ret (LoginFailed error)).

Definition handleGetAvailableSeats (answer : Answer (list SeatData.t))
    (written : Answer unit) : M Reply :=
  s <- this ;;
  if not_logged_in s then throw (Err "Not logged in. Please login first.")
  else
    try_catch
      (data <- await answer ;;
       assign_seatMatrix data ;;
       await written ;;
       ret (SeatsFetched (List.length data)))
      (fun error => ret (SeatsFailed error)).

Definition handleLoadCutoffData (file : Answer (list CutoffData.t)) : M Reply :=
  try_catch
    (data <- await file ;;
     assign_cutoffData data ;;
     s <- this ;;
     ret (CutoffLoaded (List.length (cutoffData s))))
    (fun error => ret (CutoffFailed error)).

Definition handleLoadCoursePreferences (file : Answer (list Course.t)) : M Reply :=
  try_catch
    (data <- await file ;;
     assign_preferredCourses data ;;
     s <- this ;;
     ret (CoursesLoaded (List.length (preferredCourses s))))
    (fun error => ret (CoursesFailed error)).

Definition handleGenerateChoices (args : GenerateChoicesArgs) : M Reply :=
  s <- this ;;
  if (List.length (seatMatrix s) =? 0)%nat then
    throw (Err "Seat matrix not loaded. Please fetch available seats first.")
  else if (List.length (cutoffData s) =? 0)%nat then
    throw (Err "Cutoff data not loaded. Please load cutoff data first.")
  else if (List.length (preferredCourses s) =? 0)%nat then
    throw (Err "Course preferences not loaded. Please load course preferences first.")
  else if negb (arg_truthy (districtChoices args))
          || negb (isArray (districtChoices args)) then
    throw (Err "districtChoices is required and must be an array")
  else
    let districtChoices := array_items (districtChoices args) in
    let topPrefDist := match topPrefDist args with Some v => v | None => [] end in
    let minCutoff :=
      match minCutoff args with Some v => v | None => Fin (Num.of_Z 85) end in
    let category := match category args with Some v => v | None => "MBC" end in
    let result :=
      Ranker.generateSelectionPayload s districtChoices topPrefDist minCutoff
                                      category in
    let count := List.length (selections result) in
    ret (Generated count (firstn 10 (reference result))
                   (if (10 <? count)%nat then Some (count - 10) else None)).

Definition handleSubmitChoices (selections : list string) (answer : Answer unit)
  : M Reply :=
  s <- this ;;
  if not_logged_in s then throw (Err "Not logged in. Please login first.")
  else
    try_catch
      (await answer ;;
       ret (Submitted (List.length selections)))
      (fun error => ret (SubmitFailed error)).

Definition handleGetSessionStatus : M Reply :=
  s <- this ;;
  ret (SessionStatus (negb (not_logged_in s))
                     (List.length (seatMatrix s))
                     (List.length (cutoffData s))
                     (List.length (preferredCourses s))).

(** A tool call as the request handler receives it, with what the outside
    world answers to the calls the tool makes. *)
Inductive Request :=
| login (args : option (jsval * jsval)) (answer : Answer LoginResponse)
| get_available_seats (answer : Answer (list SeatData.t)) (written : Answer unit)
| load_cutoff_data (file : Answer (list CutoffData.t))
| load_course_preferences (file : Answer (list Course.t))
| generate_choices (args : option GenerateChoicesArgs)
| submit_choices (args : option ArgValue) (answer : Answer unit)
| get_session_status
| unknown_tool (name : string).

Definition tool_name (r : Request) : string :=
  match r with
  | login _ _ => "login"
  | get_available_seats _ _ => "get_available_seats"
  | load_cutoff_data _ => "load_cutoff_data"
  | load_course_preferences _ => "load_course_preferences"
  | generate_choices _ => "generate_choices"
  | submit_choices _ _ => "submit_choices"
  | get_session_status => "get_session_status"
  | unknown_tool name => name
  end.

(** The handler of CallToolRequestSchema. *)
Definition callTool (r : Request) : M Reply :=
  try_catch
    match r with
    | login (Some (JStr email, JStr password)) answer => handleLogin answer
    | login _ _ => throw (InvalidParams "Login requires email and password")
    | get_available_seats answer written => handleGetAvailableSeats answer written
    | load_cutoff_data file => handleLoadCutoffData file
    | load_course_preferences file => handleLoadCoursePreferences file
    | generate_choices (Some args) => handleGenerateChoices args
    | generate_choices None =>
        throw (InvalidParams "Generate choices requires parameters")
    | submit_choices (Some (StringArray selections)) answer =>
        handleSubmitChoices selections answer
    | submit_choices _ _ =>
        throw (InvalidParams "Submit choices requires selections array")
    | get_session_status => handleGetSessionStatus
    | unknown_tool name => throw (MethodNotFound name)
    end
    (fun error => throw (InternalError (tool_name r) error)).

End Server.

(** ** The count of seats with availability in the reply to the fetch

    [handleGetAvailableSeats] reports, beside the number of records, how many
    have [seat.OC > 0 || seat.BC > 0 || ... || seat.ST > 0].  The comparison
    converts its left operand with ToNumber. *)

Module Availability.

Definition trim_end (l : list ascii) : list ascii :=
  rev (JS.trim_start (rev l)).

Definition radix_digit (base : Z) (c : ascii) : option Z :=
  let n := nat_of_ascii c in
  let v :=
    if ((48 <=? n) && (n <=? 57))%nat then Some (Z.of_nat (n - 48))
    else if ((97 <=? n) && (n <=? 102))%nat then Some (Z.of_nat (n - 87))
    else if ((65 <=? n) && (n <=? 70))%nat then Some (Z.of_nat (n - 55))
    else None in
  match v with
  | Some d => if (d <? base)%Z then Some d else None
  | None => None
  end.

(** The value of a run of digits in the base, [None] if a character is not
    a digit of the base. *)
Fixpoint read_radix (base acc : Z) (l : list ascii) : option Z :=
  match l with
  | [] => Some acc
  | c :: l' =>
      match radix_digit base c with
      | Some d => read_radix base (base * acc + d) l'
      | None => None
      end
  end.

Definition radix_literal (base : Z) (l : list ascii) : number :=
  match l with
  | [] => NaN
  | _ :: _ =>
      match read_radix base 0 l with
      | Some v => Fin (Num.of_Z v)
      | None => NaN
      end
  end.

(** The exponent part and what follows it. *)
Definition exponent_and_rest (l : list ascii) : Z * list ascii :=
  match l with
  | c :: l' =>
      if Ascii.eqb c "e"%char || Ascii.eqb c "E"%char then
        let '(neg, l2) := JS.read_sign l' in
        let '(v, cnt, rest) := JS.read_digits 0 0 l2 in
        match cnt with
        | O => (0%Z, l)
        | S _ => (if neg then (- v)%Z else v, rest)
        end
      else (0%Z, l)
  | [] => (0%Z, [])
  end.

(** A decimal literal that is the whole input. *)
Definition decimal_literal (l : list ascii) : number :=
  let '(neg, l0) := JS.read_sign l in
  if String.eqb (string_of_list_ascii l0) "Infinity" then Inf neg
  else
    let '(ip, icnt, l1) := JS.read_digits 0 0 l0 in
    let '(m, fcnt, l2) :=
      match l1 with
      | "."%char :: l1' => JS.read_digits ip 0 l1'
      | _ => (ip, O, l1)
      end in
    match (icnt + fcnt)%nat with
    | O => NaN
    | S _ =>
        let '(e, rest) := exponent_and_rest l2 in
        match rest with
        | [] => Fin (JS.scaled (if neg then (- m)%Z else m) (e - Z.of_nat fcnt))
        | _ :: _ => NaN
        end
    end.

(** ToNumber on a string. *)
Definition StringToNumber (s : string) : number :=
  match trim_end (JS.trim_start (list_ascii_of_string s)) with
  | [] => Num.zero
  | ("0"%char :: c :: l') as l =>
      if Ascii.eqb c "x"%char || Ascii.eqb c "X"%char then radix_literal 16 l'
      else if Ascii.eqb c "o"%char || Ascii.eqb c "O"%char then radix_literal 8 l'
      else if Ascii.eqb c "b"%char || Ascii.eqb c "B"%char then radix_literal 2 l'
      else decimal_literal l
  | l => decimal_literal l
  end.

Definition ToNumber (v : jsval) : number :=
  match v with
  | JUndefined => NaN
  | JNull => Num.zero
  | JBool true => Fin (Num.of_Z 1)
  | JBool false => Num.zero
  | JNum d => Fin d
  | JStr s => StringToNumber s
  end.

(** [v > 0] *)
Definition positive (v : jsval) : bool := Num.gt (ToNumber v) Num.zero.

Definition has_availability (seat : SeatData.t) : bool :=
  positive (SeatData.OC seat) || positive (SeatData.BC seat)
  || positive (SeatData.BCM seat) || positive (SeatData.MBC seat)
  || positive (SeatData.SC seat) || positive (SeatData.SCA seat)
  || positive (SeatData.ST seat).

(** [availableSeats] *)
Definition availableSeats (data : list SeatData.t) : nat :=
  List.length (List.filter has_availability data).

(** The categories of the tool schema. *)
Definition categories : list string :=
  ["OC"; "BC"; "BCM"; "MBC"; "SC"; "SCA"; "ST"].

End Availability.

(** ** What becomes of a seat record in the first loop *)

Module Fate.

Import Ranker.

Section WithSession.

Variable this : Session.
Variable category : string.

(** The seat passes the two [continue] tests and its cutoff is looked up. *)
Definition looked_up (seat : SeatData.t) : bool :=
  bool_decide (SeatData.branCode seat ∈ allowedBranchCodes this)
  && negb (no_seats (SeatData.get seat category)).

(** The seat is looked up and no cutoff record is found: [unMatched++]. *)
Definition unresolved (seat : SeatData.t) : bool :=
  looked_up seat
  && match matchingCutoff this seat with None => true | Some _ => false end.

(** The seat is looked up and the score of its cutoff record is NaN. *)
Definition unscored (seat : SeatData.t) : bool :=
  looked_up seat
  && match matchingCutoff this seat with
     | Some c => Num.isNaN (cutoffScore category c)
     | None => false
     end.

End WithSession.

End Fate.

(** ** Tool calls in sequence *)

Module Calls.

(** The session after a tool call. *)
Definition after (s : Session) (r : Server.Request) : Session :=
  snd (Server.callTool r s).


(** The session of a server that has just been constructed. *)
Definition fresh : Session := mkSession None [] [] [].

End Calls.

(** ** Sample data

    The scenario of section 8 of the specification and small variations of
    it, used to run the definitions above. *)

Module Scenario.

Definition count (n : Z) : jsval := JNum (Num.of_Z n).

(** A seat record with [n] open seats in category MBC and none elsewhere. *)
Definition seat (i colCode colName branCode branName : string) (n : Z)
  : SeatData.t :=
  SeatData.mk i "F1" (count 1) (JStr colCode) colName branCode branName
              (count 0) (count 0) (count 0) (count n) (count 0) (count 0)
              (count 0).

(** A cutoff record with the values [mbc] and [oc] in the categories MBC and
    OC and nothing in the others. *)
Definition cutoff_record (coc : Z) (brc : string) (mbc oc : jsval)
  : CutoffData.t :=
  CutoffData.mk "c" (count coc) "college" brc "course" "code"
                oc JUndefined JUndefined mbc JUndefined JUndefined JUndefined.

Definition s1 : SeatData.t :=
  seat "s1" "100" "Chennai Inst" "CS" "Computer Science" 5.

Definition s2 : SeatData.t :=
  seat "s2" "100" "Chennai Inst" "EC" "Electronics" 3.

Definition courses : list Course.t :=
  [Course.mk "CS" "Computer Science"; Course.mk "EC" "Electronics"].

Definition cs_100 : CutoffData.t :=
  cutoff_record 100 "CS" (JStr "90.5") JUndefined.

(** Section 8: two seats of one college, one cutoff record for "CS". *)
Definition two_seats : Session :=
  mkSession None [s1; s2] [cs_100] courses.

(** A seat of a college that has no cutoff record, after the two above. *)
Definition s9 : SeatData.t :=
  seat "s9" "999" "Chennai Arts" "CS" "Computer Science" 4.

Definition with_unmatched : Session :=
  mkSession None [s1; s2; s9] [cs_100] courses.

(** Two colleges with the same cutoff, the one outside the top district
    first in the seat matrix. *)
Definition m1 : SeatData.t :=
  seat "m1" "200" "Madurai Tech" "CS" "Computer Science" 2.

Definition cs_200 : CutoffData.t :=
  cutoff_record 200 "CS" (JStr "90.5") JUndefined.

Definition two_colleges : Session :=
  mkSession None [m1; s1] [cs_100; cs_200] courses.

(** A cutoff record whose MBC value is the number zero. *)
Definition cs_100_zero : CutoffData.t :=
  cutoff_record 100 "CS" (count 0) (JStr "95").

Definition zero_cutoff : Session :=
  mkSession None [s1] [cs_100_zero] courses.

(** A lower cutoff in the top district, a higher one outside it. *)
Definition cs_200_high : CutoffData.t :=
  cutoff_record 200 "CS" (JStr "97") JUndefined.

Definition high_outside : Session :=
  mkSession None [m1; s1] [cs_100; cs_200_high] courses.

Definition threshold (n : Z) : number := Fin (Num.of_Z n).

Definition args_of (districts : list string) : Server.GenerateChoicesArgs :=
  Server.mkArgs (Server.StringArray districts) None None None.

Definition welcome : Server.LoginResponse :=
  Server.mkLoginResponse "success" "abc123" "u1" "Student".

End Scenario.

(** ** Sentences of the specification that the program does not satisfy
    as they are written *)

Module Stated.

Import Ranker Server.

(** "districtChoices=[] must be rejected as a precondition error, not
    return an empty list silently." *)
Definition empty_districtChoices_rejected : Prop :=
  forall (s : Session) (args : GenerateChoicesArgs),
    districtChoices args = StringArray [] ->
    exists e, fst (handleGenerateChoices args s) = Throw e.

(** "parse the value at category as a floating-point number; if that
    parse fails (non-numeric or absent), parse the value at category OC
    instead": the score is the parse at the category whenever that parse
    gives a number. *)
Definition category_parse_wins : Prop :=
  forall (category : string) (c : CutoffData.t),
    Num.isNaN (JS.parseFloat (JS.to_String (CutoffData.get c category))) = false ->
    cutoffScore category c
    = JS.parseFloat (JS.to_String (CutoffData.get c category)).

(** "Ties: stable, preserve relative input order", read on the output:
    two candidates with equal cutoffs stand in the output in the order of
    their seats in the seat matrix. *)
Definition ties_in_input_order : Prop :=
  forall (this : Session) (districtChoices topPrefDist : list string)
         (minCutoff : number) (category : string)
         (seat1 seat2 : SeatData.t) (x y : ValidSelection),
    precedes seat1 seat2 (seatMatrix this) ->
    candidate this category seat1 = Some x ->
    candidate this category seat2 = Some y ->
    Num.eqn (cutoff x) (cutoff y) = true ->
    let final :=
      finalSorted this districtChoices topPrefDist minCutoff category in
    In x final -> In y final -> precedes x y final.

Definition fetch_or_load (r : Request) : bool :=
  match r with
  | get_available_seats _ _ | load_cutoff_data _ | load_course_preferences _ =>
      true
  | _ => false
  end.

(** "only the fetch and load operations replace them" *)
Definition only_fetch_and_load_replace : Prop :=
  forall (r : Request) (s : Session),
    snd (callTool r s) <> s -> fetch_or_load r = true.

End Stated.

(** * Properties *)

(** ** Numbers *)

Module NumFacts.

Import Num.

Lemma pow10_add (a b : nat) :
  pow10 (a + b) = (pow10 a * pow10 b)%positive.
Proof.
  induction a as [|a IH]; simpl; [reflexivity|].
  rewrite IH. lia.
Qed.

Lemma toQ_dec_sub (a b : decimal) :
  (toQ (dec_sub a b) == toQ a - toQ b)%Q.
Proof.
  destruct a as [ma sa], b as [mb sb].
  unfold toQ, dec_sub, Qeq, Qminus, Qplus, Qopp; simpl.
  rewrite pow10_add. lia.
Qed.

Lemma toQ_zero : (toQ (of_Z 0) == 0)%Q.
Proof. reflexivity. Qed.

(** The comparator [b - a] is positive exactly when [b > a]. *)
Lemma gt_sub_zero (a b : number) :
  gt (sub b a) zero = gt b a.
Proof.
  destruct a as [|[]|x], b as [|[]|y]; try reflexivity.
  unfold gt, sub, zero, compare, dec_compare.
  destruct (Qcompare_spec (toQ y) (toQ x)) as [H|H|H];
      destruct (Qcompare_spec (toQ (dec_sub y x)) (toQ (of_Z 0))) as [H'|H'|H'];
      try reflexivity; rewrite toQ_dec_sub, toQ_zero in H'; lra.
Qed.

Lemma compare_refl (a : number) : isNaN a = false -> compare a a = Some Eq.
Proof.
  destruct a as [|[]|x]; simpl; try discriminate; intros _; try reflexivity.
  unfold dec_compare. now rewrite (proj1 (Qeq_alt _ _) (Qeq_refl _)).
Qed.

(** Among numbers that are not NaN, [b > a] or else [a >= b]. *)
Lemma not_gt_ge (a b : number) :
  isNaN a = false -> isNaN b = false -> gt b a = false -> ge a b = true.
Proof.
  destruct a as [|[]|x], b as [|[]|y]; simpl; try discriminate; intros _ _;
    try (cbv; congruence).
  unfold gt, ge, compare, dec_compare.
  rewrite <- (Qcompare_antisym (toQ y) (toQ x)).
  destruct (toQ y ?= toQ x)%Q; simpl; congruence.
Qed.

Lemma gt_ge (a b : number) : gt a b = true -> ge a b = true.
Proof. unfold gt, ge. destruct (compare a b) as [[]|]; congruence. Qed.

Lemma ge_trans (a b c : number) :
  ge a b = true -> ge b c = true -> ge a c = true.
Proof.
  destruct a as [|[]|x], b as [|[]|y], c as [|[]|z];
    try discriminate; try reflexivity.
  unfold ge, compare, dec_compare.
  destruct (Qcompare_spec (toQ x) (toQ y)); try discriminate;
    destruct (Qcompare_spec (toQ y) (toQ z)); try discriminate;
    destruct (Qcompare_spec (toQ x) (toQ z)); try reflexivity; lra.
Qed.

(** Two numbers equal to a third are not strictly ordered. *)
Lemma eqn_not_gt (a b c : number) :
  eqn a c = true -> eqn b c = true -> gt b a = false.
Proof.
  destruct a as [|[]|x], b as [|[]|y], c as [|[]|z];
    try discriminate; try reflexivity.
  unfold eqn, gt, compare, dec_compare.
  destruct (Qcompare_spec (toQ x) (toQ z)); try discriminate;
    destruct (Qcompare_spec (toQ y) (toQ z)); try discriminate;
    destruct (Qcompare_spec (toQ y) (toQ x)); try reflexivity; lra.
Qed.

Lemma eqn_gt_false (a b : number) : eqn a b = true -> gt a b = false.
Proof. unfold eqn, gt. destruct (compare a b) as [[]|]; congruence. Qed.

Lemma compare_antisym (a b : number) :
  compare b a = option_map CompOpp (compare a b).
Proof.
  destruct a as [|[]|x], b as [|[]|y]; try reflexivity.
  unfold compare, dec_compare; simpl.
  now rewrite <- (Qcompare_antisym (toQ x) (toQ y)).
Qed.

Lemma eqn_sym (a b : number) : eqn a b = eqn b a.
Proof.
  unfold eqn. rewrite (compare_antisym a b).
  destruct (compare a b) as [[]|]; reflexivity.
Qed.

Lemma ge_not_eqn_gt (a b : number) :
  ge a b = true -> eqn a b = false -> gt a b = true.
Proof. unfold ge, eqn, gt. destruct (compare a b) as [[]|]; congruence. Qed.

Lemma gt_not_ge_rev (a b : number) : gt a b = true -> ge b a = false.
Proof.
  unfold gt, ge. rewrite (compare_antisym a b).
  destruct (compare a b) as [[]|]; simpl; congruence.
Qed.

(** For a finite count, [count <= 0] fails exactly when [count > 0]. *)
Lemma le_zero_false (d : decimal) :
  le (Fin d) zero = false <-> gt (Fin d) zero = true.
Proof.
  unfold le, gt, zero, compare. destruct (dec_compare d (of_Z 0)); split; intros; congruence.
Qed.

End NumFacts.

(** ** Lists: order of occurrence and filtering *)

Module ListFacts.

Import Ranker.

Section Filter.

Context {A : Type} (p : A -> bool).

Lemma filter_split (l l1 r : list A) (x : A) :
  List.filter p l = l1 ++ x :: r ->
  exists l1' r', l = l1' ++ x :: r'
                 /\ List.filter p l1' = l1 /\ List.filter p r' = r.
Proof.
  revert l1; induction l as [|a l IH]; simpl; intros l1 H.
  - destruct l1; discriminate.
  - destruct (p a) eqn:E.
    + destruct l1 as [|z l1]; simpl in H; injection H as -> Hr.
      * exists [], l. auto.
      * apply IH in Hr as (l1' & r' & -> & <- & <-).
        exists (z :: l1'), r'. simpl. now rewrite E.
    + apply IH in H as (l1' & r' & -> & <- & <-).
      exists (a :: l1'), r'. simpl. now rewrite E.
Qed.

Lemma precedes_of_filter (x y : A) (l : list A) :
  precedes x y (List.filter p l) -> precedes x y l.
Proof.
  intros (l1 & l2 & l3 & H).
  apply filter_split in H as (l1' & r' & -> & _ & H).
  apply filter_split in H as (l2' & l3' & -> & _ & _).
  now exists l1', l2', l3'.
Qed.

Lemma precedes_filter (x y : A) (l : list A) :
  p x = true -> p y = true ->
  precedes x y l -> precedes x y (List.filter p l).
Proof.
  intros Hx Hy (l1 & l2 & l3 & ->).
  exists (List.filter p l1), (List.filter p l2), (List.filter p l3).
  rewrite List.filter_app. simpl. rewrite Hx, List.filter_app. simpl. now rewrite Hy.
Qed.

Lemma filter_filter_keep (q : A -> bool) (l : list A) :
  (forall x, p x = true -> q x = true) ->
  List.filter p (List.filter q l) = List.filter p l.
Proof.
  intros H; induction l as [|a l IH]; simpl; [reflexivity|].
  destruct (q a) eqn:Eq; simpl; rewrite IH; [reflexivity|].
  destruct (p a) eqn:Ep; [|reflexivity].
  apply H in Ep. congruence.
Qed.

Lemma filter_filter_none (q : A -> bool) (l : list A) :
  (forall x, p x = true -> q x = false) ->
  List.filter p (List.filter q l) = [].
Proof.
  intros H; induction l as [|a l IH]; simpl; [reflexivity|].
  destruct (q a) eqn:Eq; simpl; rewrite ?IH; [|reflexivity].
  destruct (p a) eqn:Ep; [|reflexivity].
  apply H in Ep. congruence.
Qed.

End Filter.

Lemma precedes_app_l {A} (x y : A) (l l' : list A) :
  precedes x y l -> precedes x y (l ++ l').
Proof.
  intros (l1 & l2 & l3 & ->). exists l1, l2, (l3 ++ l').
  rewrite <- List.app_assoc; simpl. now rewrite <- List.app_assoc.
Qed.

Lemma precedes_app_r {A} (x y : A) (l l' : list A) :
  precedes x y l' -> precedes x y (l ++ l').
Proof.
  intros (l1 & l2 & l3 & ->). exists (l ++ l1), l2, l3.
  now rewrite <- List.app_assoc.
Qed.

Lemma precedes_flat_map {A B} (f : A -> list B) (a b : A) (x y : B) (l : list A) :
  precedes a b l -> In x (f a) -> In y (f b) -> precedes x y (flat_map f l).
Proof.
  intros (l1 & l2 & l3 & ->) Hx Hy.
  apply List.in_split in Hx as (u1 & u2 & Hu), Hy as (v1 & v2 & Hv).
  rewrite List.flat_map_app; simpl. rewrite List.flat_map_app; simpl.
  rewrite Hu, Hv.
  exists (flat_map f l1 ++ u1), (u2 ++ flat_map f l2 ++ v1), (v2 ++ flat_map f l3).
  repeat (rewrite <- List.app_assoc; simpl). reflexivity.
Qed.

End ListFacts.

(** ** The sort *)

Module SortFacts.

Import Ranker NumFacts.

Section Generic.

Context {A : Type} (comparefn : A -> A -> number).

Lemma sort_insert_In (x z : A) (l : list A) :
  In z (sort_insert comparefn x l) <-> z = x \/ In z l.
Proof.
  induction l as [|y l IH]; simpl.
  - intuition.
  - destruct (Num.gt (comparefn x y) Num.zero); simpl; rewrite ?IH; intuition.
Qed.

Lemma sort_In (z : A) (l : list A) :
  In z (sort comparefn l) <-> In z l.
Proof.
  induction l as [|x l IH]; simpl; [reflexivity|].
  rewrite sort_insert_In, IH. intuition.
Qed.

Lemma sort_length (l : list A) :
  List.length (sort comparefn l) = List.length l.
Proof.
  assert (Hi : forall x l', List.length (sort_insert comparefn x l')
                            = S (List.length l')).
  { intros x l'; induction l' as [|y l' IH]; simpl; [reflexivity|].
    destruct (Num.gt (comparefn x y) Num.zero); simpl; now rewrite ?IH. }
  induction l as [|x l IH]; simpl; [reflexivity|].
  now rewrite Hi, IH.
Qed.

(** Stability: a class of items that the comparator never orders strictly
    keeps the order it had. *)
Lemma sort_insert_stable (p : A -> bool) (x : A) (l : list A) :
  (forall y, Num.gt (comparefn x y) Num.zero = true ->
             p x = true -> p y = false) ->
  List.filter p (sort_insert comparefn x l) = List.filter p (x :: l).
Proof.
  intros Hp; induction l as [|y l IH]; [reflexivity|].
  simpl. destruct (Num.gt (comparefn x y) Num.zero) eqn:E; [|reflexivity].
  simpl. rewrite IH. simpl.
  destruct (p x) eqn:Ex; [|reflexivity].
  now rewrite (Hp y E eq_refl).
Qed.

Lemma sort_stable (p : A -> bool) (l : list A) :
  (forall x y, Num.gt (comparefn x y) Num.zero = true ->
               p x = true -> p y = false) ->
  List.filter p (sort comparefn l) = List.filter p l.
Proof.
  intros Hp; induction l as [|x l IH]; [reflexivity|].
  simpl sort. rewrite sort_insert_stable by (apply Hp).
  simpl. now rewrite IH.
Qed.

End Generic.

Lemma by_cutoff_desc_gt (a b : ValidSelection) :
  Num.gt (by_cutoff_desc a b) Num.zero = Num.gt (cutoff b) (cutoff a).
Proof. apply gt_sub_zero. Qed.

Lemma sort_insert_sorted (x : ValidSelection) (l : list ValidSelection) :
  has_score x -> Forall has_score l ->
  StronglySorted cutoff_ge l ->
  StronglySorted cutoff_ge (sort_insert by_cutoff_desc x l).
Proof.
  intros Hx Hl Hs; induction Hs as [|y l Hs IH Hy]; simpl.
  - repeat constructor.
  - inversion Hl as [|? ? Hy' Hl']; subst.
    rewrite by_cutoff_desc_gt.
    destruct (Num.gt (cutoff y) (cutoff x)) eqn:E.
    + constructor; [auto|].
      apply List.Forall_forall; intros z Hz.
      apply sort_insert_In in Hz as [->|Hz].
      * now apply gt_ge.
      * rewrite List.Forall_forall in Hy. auto.
    + assert (Hxy : cutoff_ge x y) by (now apply not_gt_ge).
      constructor; [now constructor|].
      constructor; [exact Hxy|].
      eapply List.Forall_impl; [|exact Hy].
      intros z Hz. eapply ge_trans; eauto.
Qed.

Lemma sort_sorted (l : list ValidSelection) :
  Forall has_score l -> StronglySorted cutoff_ge (sort by_cutoff_desc l).
Proof.
  induction 1 as [|x l Hx Hl IH]; simpl; [constructor|].
  apply sort_insert_sorted; auto.
  apply List.Forall_forall; intros z Hz. apply sort_In in Hz.
  rewrite List.Forall_forall in Hl. auto.
Qed.

(** The sort rearranges its input. *)
Lemma sort_insert_perm {A} (comparefn : A -> A -> number) (x : A) (l : list A) :
  Permutation (sort_insert comparefn x l) (x :: l).
Proof.
  induction l as [|y l IH]; simpl; [reflexivity|].
  destruct (Num.gt (comparefn x y) Num.zero); [|reflexivity].
  rewrite IH. apply perm_swap.
Qed.

Lemma sort_perm {A} (comparefn : A -> A -> number) (l : list A) :
  Permutation (sort comparefn l) l.
Proof.
  induction l as [|x l IH]; simpl; [reflexivity|].
  rewrite sort_insert_perm. now constructor.
Qed.

Lemma sort_keeps_ties (c : number) (l : list ValidSelection) :
  with_cutoff c (sort by_cutoff_desc l) = with_cutoff c l.
Proof.
  unfold with_cutoff. apply sort_stable.
  intros a b Hgt Ha. rewrite by_cutoff_desc_gt in Hgt.
  destruct (Num.eqn (cutoff b) c) eqn:Eb; [|reflexivity].
  rewrite (eqn_not_gt _ _ _ Ha Eb) in Hgt. discriminate.
Qed.

(** Two descending lists of scored items with the same items of every
    cutoff, in the same order, are the same list. *)
Lemma descending_determined (l1 : list ValidSelection) :
  forall l2 : list ValidSelection,
    Forall has_score l1 -> Forall has_score l2 ->
    StronglySorted cutoff_ge l1 -> StronglySorted cutoff_ge l2 ->
    (forall c, with_cutoff c l1 = with_cutoff c l2) ->
    l1 = l2.
Proof.
  unfold with_cutoff.
  induction l1 as [|x l1 IH]; intros l2 S1 S2 D1 D2 Hc.
  - destruct l2 as [|z l2]; [reflexivity|].
    inversion S2 as [|? ? Hz _]; subst.
    specialize (Hc (cutoff z)). simpl in Hc.
    unfold Num.eqn in Hc. rewrite (compare_refl _ Hz) in Hc. discriminate.
  - inversion S1 as [|? ? Hx S1']; subst.
    inversion D1 as [|? ? D1' Hx1]; subst.
    assert (Exx : Num.eqn (cutoff x) (cutoff x) = true)
      by (unfold Num.eqn; now rewrite (compare_refl _ Hx)).
    pose proof (Hc (cutoff x)) as Hcx. simpl in Hcx. rewrite Exx in Hcx.
    symmetry in Hcx.
    apply (ListFacts.filter_split _ l2 []) in Hcx
      as (pre & post & -> & Hpre & Hpost).
    destruct pre as [|z pre].
    + simpl in *. f_equal.
      inversion S2; subst. inversion D2; subst.
      apply IH; auto.
      intros c. specialize (Hc c). simpl in Hc.
      destruct (Num.eqn (cutoff x) c); [now injection Hc|exact Hc].
    + exfalso.
      simpl in Hpre.
      destruct (Num.eqn (cutoff z) (cutoff x)) eqn:Ezx; [discriminate|].
      inversion S2 as [|? ? Hz _]; subst.
      inversion D2 as [|? ? _ Hzall]; subst.
      assert (Hzx : cutoff_ge z x).
      { rewrite List.Forall_forall in Hzall. apply Hzall.
        apply in_or_app. right. now left. }
      pose proof (ge_not_eqn_gt _ _ Hzx Ezx) as Hgt.
      pose proof (Hc (cutoff z)) as Hcz. simpl in Hcz.
      rewrite eqn_sym, Ezx in Hcz.
      unfold Num.eqn at 2 in Hcz. rewrite (compare_refl _ Hz) in Hcz.
      assert (Hin : In z l1).
      { eapply (proj1 (List.filter_In _ _ _)). rewrite Hcz. now left. }
      rewrite List.Forall_forall in Hx1. specialize (Hx1 z Hin).
      unfold cutoff_ge in Hx1. rewrite (gt_not_ge_rev _ _ Hgt) in Hx1.
      discriminate.
Qed.

(** The result of the sort does not depend on how the engine sorts: it is
    the one rearrangement of the input that is descending by cutoff and
    keeps the items of equal cutoff in their order. *)
Lemma sort_is_the_stable_descending_order (l l' : list ValidSelection) :
  Forall has_score l ->
  Permutation l' l ->
  StronglySorted cutoff_ge l' ->
  (forall c, with_cutoff c l' = with_cutoff c l) ->
  l' = sort by_cutoff_desc l.
Proof.
  intros Hl Hperm Hsorted Hties.
  apply descending_determined.
  - eapply Permutation_Forall; [symmetry; exact Hperm|exact Hl].
  - eapply Permutation_Forall; [symmetry; apply sort_perm|exact Hl].
  - exact Hsorted.
  - now apply sort_sorted.
  - intros c. now rewrite sort_keeps_ties.
Qed.

Lemma filter_sorted {A} (R : A -> A -> Prop) (p : A -> bool) (l : list A) :
  StronglySorted R l -> StronglySorted R (List.filter p l).
Proof.
  induction 1 as [|x l Hs IH Hx]; simpl; [constructor|].
  destruct (p x); [|exact IH].
  constructor; [exact IH|].
  apply List.Forall_forall; intros z Hz. apply List.filter_In in Hz as [Hz _].
  rewrite List.Forall_forall in Hx. auto.
Qed.

End SortFacts.

(** ** The two loops of the ranking *)

Module RankerFacts.

Import Ranker ListFacts SortFacts NumFacts.

Section WithSession.

Variable this : Session.
Variable category : string.

Lemma scan_seat_pushes (st : Scan) (seat : SeatData.t) :
  validSelections (scan_seat this category st seat)
  = validSelections st
    ++ match candidate this category seat with Some v => [v] | None => [] end.
Proof.
  unfold scan_seat, candidate.
  destruct (negb (bool_decide (SeatData.branCode seat ∈ allowedBranchCodes this)));
    [now rewrite List.app_nil_r|].
  destruct (no_seats (SeatData.get seat category)); [now rewrite List.app_nil_r|].
  destruct (matchingCutoff this seat) as [c|]; simpl; [|now rewrite List.app_nil_r].
  destruct (Num.isNaN (cutoffScore category c)); [|reflexivity].
  destruct (negb _); simpl; now rewrite List.app_nil_r.
Qed.

Lemma scan_fold (seats : list SeatData.t) (st : Scan) :
  validSelections (fold_left (scan_seat this category) seats st)
  = validSelections st ++ candidates this category seats.
Proof.
  revert st; induction seats as [|seat seats IH]; intros st; simpl.
  - now rewrite List.app_nil_r.
  - rewrite IH, scan_seat_pushes. now rewrite <- List.app_assoc.
Qed.

(** After the first loop [validSelections] holds the candidates of the seat
    matrix, in the order of the seat matrix. *)
Lemma scan_validSelections :
  validSelections (scan this category)
  = candidates this category (seatMatrix this).
Proof. unfold scan. now rewrite scan_fold. Qed.

Lemma In_candidates (v : ValidSelection) (seats : list SeatData.t) :
  In v (candidates this category seats)
  <-> exists seat, In seat seats /\ candidate this category seat = Some v.
Proof.
  unfold candidates. rewrite in_flat_map. split.
  - intros (seat & Hin & Hv). exists seat. split; [exact Hin|].
    destruct (candidate this category seat) as [w|]; simpl in Hv; [|tauto].
    destruct Hv as [->|[]]. reflexivity.
  - intros (seat & Hin & Hv). exists seat. split; [exact Hin|].
    rewrite Hv. now left.
Qed.

(** What is known of a seat that gave a candidate. *)
Lemma candidate_inv (seat : SeatData.t) (v : ValidSelection) :
  candidate this category seat = Some v ->
  SeatData.branCode seat ∈ allowedBranchCodes this
  /\ (exists d, SeatData.get seat category = JNum d
                /\ Num.gt (Fin d) Num.zero = true)
  /\ (exists c, matchingCutoff this seat = Some c
                /\ cutoff v = cutoffScore category c)
  /\ Num.isNaN (cutoff v) = false
  /\ id v = SeatData._id seat
  /\ college v = SeatData.colName seat
  /\ branch v = SeatData.branName seat.
Proof.
  unfold candidate.
  destruct (bool_decide (SeatData.branCode seat ∈ allowedBranchCodes this)) eqn:Ea;
    simpl; [|discriminate].
  apply bool_decide_eq_true in Ea.
  destruct (SeatData.get seat category) as [| |b|d|s] eqn:Eg; simpl; try discriminate.
  destruct (Num.le (Fin d) Num.zero) eqn:El; [discriminate|].
  apply le_zero_false in El.
  destruct (matchingCutoff this seat) as [c|]; [|discriminate].
  destruct (Num.isNaN (cutoffScore category c)) eqn:En; [discriminate|].
  intros [= <-]; simpl.
  split; [exact Ea|]. split; [now exists d|]. split; [now exists c|].
  repeat split; assumption.
Qed.

Lemma candidates_have_score (seats : list SeatData.t) :
  Forall has_score (candidates this category seats).
Proof.
  apply List.Forall_forall; intros v Hv.
  apply In_candidates in Hv as (seat & _ & Hv).
  now apply candidate_inv in Hv.
Qed.

Lemma sorted_is_descending :
  StronglySorted cutoff_ge (sorted this category).
Proof.
  unfold sorted. rewrite scan_validSelections.
  apply sort_sorted, candidates_have_score.
Qed.

Lemma In_sorted (v : ValidSelection) :
  In v (sorted this category)
  <-> In v (candidates this category (seatMatrix this)).
Proof.
  unfold sorted. now rewrite sort_In, scan_validSelections.
Qed.

End WithSession.

Lemma place_fold (topPrefDist : list string) (minCutoff : number)
    (l a b : list ValidSelection) :
  fold_left (place topPrefDist minCutoff) l (a, b)
  = (a ++ List.filter (in_group_A topPrefDist minCutoff) l,
     b ++ List.filter (fun v => negb (in_group_A topPrefDist minCutoff v)) l).
Proof.
  revert a b; induction l as [|x l IH]; intros a b; simpl.
  - now rewrite !List.app_nil_r.
  - unfold place at 2. fold (in_group_A topPrefDist minCutoff x).
    destruct (in_group_A topPrefDist minCutoff x); simpl;
      rewrite IH, <- List.app_assoc; reflexivity.
Qed.

Section Final.

Variable this : Session.
Variables districtChoices topPrefDist : list string.
Variable minCutoff : number.
Variable category : string.

Lemma groups_eq :
  groups this districtChoices topPrefDist minCutoff category
  = (List.filter (in_group_A topPrefDist minCutoff)
                 (filteredByDistrict this districtChoices category),
     List.filter (fun v => negb (in_group_A topPrefDist minCutoff v))
                 (filteredByDistrict this districtChoices category)).
Proof. unfold groups. now rewrite place_fold. Qed.

Lemma finalSorted_eq :
  finalSorted this districtChoices topPrefDist minCutoff category
  = List.filter (in_group_A topPrefDist minCutoff)
                (filteredByDistrict this districtChoices category)
    ++ List.filter (fun v => negb (in_group_A topPrefDist minCutoff v))
                   (filteredByDistrict this districtChoices category).
Proof.
  unfold finalSorted, topPreferredHighCutoff, others. now rewrite groups_eq.
Qed.

Lemma In_filteredByDistrict (v : ValidSelection) :
  In v (filteredByDistrict this districtChoices category)
  <-> In v (candidates this category (seatMatrix this))
      /\ in_some_district districtChoices (college v) = true.
Proof.
  unfold filteredByDistrict.
  now rewrite List.filter_In, In_sorted.
Qed.

Lemma In_finalSorted (v : ValidSelection) :
  In v (finalSorted this districtChoices topPrefDist minCutoff category)
  <-> In v (filteredByDistrict this districtChoices category).
Proof.
  rewrite finalSorted_eq, in_app_iff, !List.filter_In.
  destruct (in_group_A topPrefDist minCutoff v); simpl; intuition congruence.
Qed.

Lemma payload_selections :
  selections (generateSelectionPayload this districtChoices topPrefDist
                                       minCutoff category)
  = map id (finalSorted this districtChoices topPrefDist minCutoff category).
Proof. reflexivity. Qed.

Lemma payload_reference :
  reference (generateSelectionPayload this districtChoices topPrefDist
                                      minCutoff category)
  = map to_reference
        (finalSorted this districtChoices topPrefDist minCutoff category).
Proof. reflexivity. Qed.

End Final.

End RankerFacts.

(** ** Cutoff resolution *)

Module LookupFacts.

Import Ranker.

Lemma find_first {A} (f : A -> bool) (l : list A) :
  (exists c, In c l /\ f c = true) ->
  exists pre c post,
    l = pre ++ c :: post /\ f c = true
    /\ (forall c', In c' pre -> f c' = false)
    /\ find f l = Some c.
Proof.
  induction l as [|a l IH]; intros (c & Hin & Hc).
  - destruct Hin.
  - simpl. destruct (f a) eqn:E.
    + exists [], a, l. repeat split; auto. intros c' [].
    + destruct Hin as [->|Hin]; [congruence|].
      destruct IH as (pre & c0 & post & -> & H0 & Hpre & Hfind); [eauto|].
      exists (a :: pre), c0, post. repeat split; auto.
      intros c' [<-|H']; auto.
Qed.

Lemma find_nothing {A} (f : A -> bool) (l : list A) :
  (forall c, In c l -> f c = false) -> find f l = None.
Proof.
  induction l as [|a l IH]; intros H; simpl; [reflexivity|].
  rewrite (H a (or_introl eq_refl)). apply IH. intros c Hc. apply H. now right.
Qed.

Lemma matchingCutoff_Some (this : Session) (seat : SeatData.t) (c : CutoffData.t) :
  matchingCutoff this seat = Some c ->
  In c (cutoffData this) /\ same_college seat c
  /\ (CutoffData.brc c = SeatData.branCode seat \/ CutoffData.brc c = "CS").
Proof.
  unfold matchingCutoff, exact_cutoff, fallback_cutoff, same_college.
  destruct (find _ (cutoffData this)) as [c0|] eqn:E.
  - intros [= <-]. apply List.find_some in E as [Hin H].
    apply andb_prop in H as [H1 H2].
    apply String.eqb_eq in H1, H2. auto.
  - intros H. apply List.find_some in H as [Hin H].
    apply andb_prop in H as [H1 H2].
    apply String.eqb_eq in H1, H2. auto.
Qed.

(** The score of a cutoff record: the parse at the category when it is a
    number other than zero, otherwise the parse of OC. *)
Lemma cutoffScore_cases (category : string) (c : CutoffData.t) :
  let at_category := JS.parseFloat (JS.to_String (CutoffData.get c category)) in
  let at_OC := JS.parseFloat (JS.to_String (CutoffData.OC c)) in
  (Num.truthy at_category = true -> cutoffScore category c = at_category)
  /\ (Num.truthy at_category = false -> cutoffScore category c = at_OC).
Proof.
  unfold cutoffScore, Num.or_else; simpl.
  destruct (Num.truthy _); split; intros; congruence.
Qed.

End LookupFacts.

(** ** The ranking: properties of the result *)

Module RankingProps.

Import Ranker ListFacts SortFacts NumFacts RankerFacts LookupFacts Scenario.

(** C3. In the result every Group A candidate stands before every Group B
    candidate, whatever their cutoffs: the result is a list [A] followed by
    a list [B], where [A] holds the candidates that passed the district
    filter and are in Group A, [B] holds those that passed it and are not,
    and the cutoffs are non-increasing along [A] and along [B]. *)
Theorem group_A_precedes_group_B (this : Session)
    (districtChoices topPrefDist : list string) (minCutoff : number)
    (category : string) :
  exists A B : list ValidSelection,
    let result := generateSelectionPayload this districtChoices topPrefDist
                                           minCutoff category in
    selections result = map id (A ++ B)
    /\ reference result = map to_reference (A ++ B)
    /\ (forall v, In v A <->
                  In v (filteredByDistrict this districtChoices category)
                  /\ in_group_A topPrefDist minCutoff v = true)
    /\ (forall v, In v B <->
                  In v (filteredByDistrict this districtChoices category)
                  /\ in_group_A topPrefDist minCutoff v = false)
    /\ StronglySorted cutoff_ge A
    /\ StronglySorted cutoff_ge B.
Proof.
  exists (List.filter (in_group_A topPrefDist minCutoff)
                      (filteredByDistrict this districtChoices category)),
         (List.filter (fun v => negb (in_group_A topPrefDist minCutoff v))
                      (filteredByDistrict this districtChoices category)).
  cbv zeta. rewrite payload_selections, payload_reference, finalSorted_eq.
  split; [reflexivity|]. split; [reflexivity|].
  split; [|split; [|split]].
  - intros v. now rewrite List.filter_In.
  - intros v. now rewrite List.filter_In, negb_true_iff.
  - apply filter_sorted, filter_sorted, sorted_is_descending.
  - apply filter_sorted, filter_sorted, sorted_is_descending.
Qed.

(** A Group A candidate with cutoff 90.5 stands before a Group B candidate
    with cutoff 97. *)
Example lower_cutoff_in_group_A_first :
  generateSelectionPayload high_outside ["Chennai"; "Madurai"] ["Chennai"]
                           (threshold 85) "MBC"
  = mkPayload ["s1"; "m1"]
              [mkReference "Chennai Inst" "Computer Science" (Fin (Dec 905 1));
               mkReference "Madurai Tech" "Computer Science" (Fin (Dec 97 0))].
Proof. vm_compute. reflexivity. Qed.

(** C4. A candidate that passed the district filter is put in the priority
    group [topPreferredHighCutoff] if and only if its college name contains
    an entry of [topPrefDist], letter case aside, and its cutoff is strictly
    greater than [minCutoff]; otherwise it is put in [others].  A cutoff
    equal to the threshold keeps it out of the priority group. *)
Theorem group_A_membership (this : Session)
    (districtChoices topPrefDist : list string) (minCutoff : number)
    (category : string) (item : ValidSelection) :
  In item (filteredByDistrict this districtChoices category) ->
  let group_A :=
    topPreferredHighCutoff this districtChoices topPrefDist minCutoff category in
  let group_B := others this districtChoices topPrefDist minCutoff category in
  (In item group_A <->
     in_some_district topPrefDist (college item) = true
     /\ Num.gt (cutoff item) minCutoff = true)
  /\ (In item group_B <->
        ~ (in_some_district topPrefDist (college item) = true
           /\ Num.gt (cutoff item) minCutoff = true))
  /\ (Num.eqn (cutoff item) minCutoff = true -> ~ In item group_A).
Proof.
  intros Hin group_A group_B.
  unfold group_A, group_B, topPreferredHighCutoff, others.
  rewrite groups_eq. simpl.
  rewrite !List.filter_In, negb_true_iff. unfold in_group_A.
  rewrite andb_true_iff, andb_false_iff.
  split; [tauto|]. split.
  - destruct (in_some_district topPrefDist (college item));
      destruct (Num.gt (cutoff item) minCutoff); intuition congruence.
  - intros He [_ [_ H]]. rewrite (eqn_gt_false _ _ He) in H. discriminate.
Qed.

Lemma group_A_membership_witness :
  let item := mkValidSelection "s1" "Chennai Inst" "Computer Science"
                               (Fin (Dec 905 1)) in
  let group_A :=
    topPreferredHighCutoff two_seats ["Chennai"] ["chennai"] (threshold 85) "MBC" in
  let group_B := others two_seats ["Chennai"] ["chennai"] (threshold 85) "MBC" in
  (In item group_A <->
     in_some_district ["chennai"] (college item) = true
     /\ Num.gt (cutoff item) (threshold 85) = true)
  /\ (In item group_B <->
        ~ (in_some_district ["chennai"] (college item) = true
           /\ Num.gt (cutoff item) (threshold 85) = true))
  /\ (Num.eqn (cutoff item) (threshold 85) = true -> ~ In item group_A).
Proof.
  intros item.
  apply (group_A_membership two_seats ["Chennai"] ["chennai"] (threshold 85)
                            "MBC" item).
  vm_compute. left. reflexivity.
Defined.

(** C5. A seat record with no cutoff record for its own (college code,
    course code) pair, but with a cutoff record of its college whose course
    code is "CS", resolves to the first such record of the cutoff data; and
    when the record is scored (its course is allowed, it has open seats in
    the category and the score is a number) the candidate pushed for it
    carries the score of that record. *)
Theorem fallback_resolves_to_first_CS (this : Session) (seat : SeatData.t) :
  (forall c, In c (cutoffData this) -> same_college seat c ->
             CutoffData.brc c <> SeatData.branCode seat) ->
  (exists c, In c (cutoffData this) /\ same_college seat c
             /\ CutoffData.brc c = "CS") ->
  exists pre c post,
    cutoffData this = pre ++ c :: post
    /\ same_college seat c /\ CutoffData.brc c = "CS"
    /\ (forall c', In c' pre ->
                   ~ (same_college seat c' /\ CutoffData.brc c' = "CS"))
    /\ matchingCutoff this seat = Some c
    /\ forall (category : string) (st : Scan),
         SeatData.branCode seat ∈ allowedBranchCodes this ->
         no_seats (SeatData.get seat category) = false ->
         Num.isNaN (cutoffScore category c) = false ->
         validSelections (scan_seat this category st seat)
         = validSelections st
           ++ [mkValidSelection (SeatData._id seat) (SeatData.colName seat)
                                (SeatData.branName seat)
                                (cutoffScore category c)].
Proof.
  intros Hexact Hcs.
  assert (Hnone : exact_cutoff this seat = None).
  { apply find_nothing. intros c Hc.
    apply andb_false_iff.
    destruct (String.eqb_spec (JS.to_String (CutoffData.coc c))
                              (JS.to_String (SeatData.colCode seat))) as [E|E];
      [right|now left].
    apply String.eqb_neq. now apply Hexact. }
  destruct (find_first
              (fun c => String.eqb (JS.to_String (CutoffData.coc c))
                                   (JS.to_String (SeatData.colCode seat))
                        && String.eqb (CutoffData.brc c) "CS")
              (cutoffData this))
    as (pre & c & post & Hsplit & Hc & Hpre & Hfind).
  { destruct Hcs as (c & Hin & Hcol & Hbrc). exists c. split; [exact Hin|].
    apply andb_true_iff. split; now apply String.eqb_eq. }
  apply andb_prop in Hc as [Hc1 Hc2]. apply String.eqb_eq in Hc1, Hc2.
  assert (Hm : matchingCutoff this seat = Some c).
  { unfold matchingCutoff. rewrite Hnone. exact Hfind. }
  exists pre, c, post.
  split; [exact Hsplit|]. split; [exact Hc1|]. split; [exact Hc2|].
  split; [|split; [exact Hm|]].
  - intros c' Hin [H1 H2]. specialize (Hpre c' Hin).
    apply andb_false_iff in Hpre as [H|H]; apply String.eqb_neq in H; auto.
  - intros category st Hallowed Hseats Hscore.
    rewrite scan_seat_pushes. unfold candidate.
    rewrite (bool_decide_eq_true_2 _ Hallowed). simpl.
    now rewrite Hseats, Hm, Hscore.
Qed.

Lemma fallback_resolves_to_first_CS_witness :
  exists pre c post,
    cutoffData two_seats = pre ++ c :: post
    /\ same_college s2 c /\ CutoffData.brc c = "CS"
    /\ (forall c', In c' pre ->
                   ~ (same_college s2 c' /\ CutoffData.brc c' = "CS"))
    /\ matchingCutoff two_seats s2 = Some c
    /\ forall (category : string) (st : Scan),
         SeatData.branCode s2 ∈ allowedBranchCodes two_seats ->
         no_seats (SeatData.get s2 category) = false ->
         Num.isNaN (cutoffScore category c) = false ->
         validSelections (scan_seat two_seats category st s2)
         = validSelections st
           ++ [mkValidSelection (SeatData._id s2) (SeatData.colName s2)
                                (SeatData.branName s2)
                                (cutoffScore category c)].
Proof.
  apply (fallback_resolves_to_first_CS two_seats s2).
  - intros c [<-|[]] _. vm_compute. discriminate.
  - exists cs_100. split; [now left|]. split; reflexivity.
Defined.

(** In the scenario of section 8 the seat "s2" (course "EC") is scored by
    the "CS" record of its college: 90.5. *)
Example fallback_in_scenario :
  matchingCutoff two_seats s2 = Some cs_100
  /\ candidate two_seats "MBC" s2
     = Some (mkValidSelection "s2" "Chennai Inst" "Electronics" (Fin (Dec 905 1))).
Proof. vm_compute. split; reflexivity. Qed.

(** C6. A seat record for which the cutoff data has neither a record of its
    (college code, course code) pair nor a "CS" record of its college code
    (in particular a seat whose college code is in no cutoff record) does
    not have its id in the selection list, whatever its course and its open
    seats.  Seat ids identify seat records (section 3). *)
Theorem unmatched_seat_absent (this : Session)
    (districtChoices topPrefDist : list string) (minCutoff : number)
    (category : string) (seat : SeatData.t) :
  (forall c, In c (cutoffData this) -> same_college seat c ->
             CutoffData.brc c <> SeatData.branCode seat
             /\ CutoffData.brc c <> "CS") ->
  (forall seat', In seat' (seatMatrix this) ->
                 SeatData._id seat' = SeatData._id seat -> seat' = seat) ->
  ~ In (SeatData._id seat)
       (selections (generateSelectionPayload this districtChoices topPrefDist
                                             minCutoff category)).
Proof.
  intros Hno Hid Hin.
  rewrite payload_selections in Hin.
  apply in_map_iff in Hin as (v & Hv & Hin).
  apply In_finalSorted, In_filteredByDistrict in Hin as [Hin _].
  apply In_candidates in Hin as (seat' & Hseat' & Hcand).
  apply candidate_inv in Hcand as (_ & _ & (c & Hc & _) & _ & Hidv & _).
  assert (seat' = seat) as -> by (apply Hid; [exact Hseat'|congruence]).
  apply matchingCutoff_Some in Hc as (Hc & Hcol & Hbrc).
  destruct (Hno c Hc Hcol) as [H1 H2]. tauto.
Qed.

Lemma unmatched_seat_absent_witness :
  ~ In (SeatData._id s9)
       (selections (generateSelectionPayload with_unmatched ["Chennai"] []
                                             (threshold 85) "MBC")).
Proof.
  apply (unmatched_seat_absent with_unmatched ["Chennai"] [] (threshold 85)
                               "MBC" s9).
  - intros c [<-|[]]. vm_compute. discriminate.
  - intros seat' [<-|[<-|[<-|[]]]]; vm_compute; congruence.
Defined.

(** C7. Every entry of the result comes from a seat record of the seat
    matrix whose course code is in the set of allowed course codes, whose
    count at the category is a number greater than zero, and whose college
    name contains an entry of [districtChoices], letter case aside. *)
Theorem entries_pass_the_filters (this : Session)
    (districtChoices topPrefDist : list string) (minCutoff : number)
    (category : string) (i : nat) (sel : string) :
  let result := generateSelectionPayload this districtChoices topPrefDist
                                         minCutoff category in
  nth_error (selections result) i = Some sel ->
  exists seat r,
    In seat (seatMatrix this)
    /\ nth_error (reference result) i = Some r
    /\ SeatData._id seat = sel
    /\ SeatData.colName seat = ref_college r
    /\ SeatData.branName seat = ref_branch r
    /\ SeatData.branCode seat ∈ allowedBranchCodes this
    /\ (exists d, SeatData.get seat category = JNum d
                  /\ Num.gt (Fin d) Num.zero = true)
    /\ exists dist, In dist districtChoices
                    /\ JS.includes (JS.toLowerCase (SeatData.colName seat))
                                   (JS.toLowerCase dist) = true.
Proof.
  intros result Hsel. unfold result in *.
  rewrite payload_selections in Hsel. rewrite payload_reference.
  rewrite List.nth_error_map in Hsel.
  destruct (nth_error (finalSorted this districtChoices topPrefDist minCutoff
                                   category) i) as [v|] eqn:Hv;
    [|discriminate].
  injection Hsel as <-.
  pose proof (nth_error_In _ _ Hv) as Hin.
  apply In_finalSorted, In_filteredByDistrict in Hin as [Hin Hd].
  apply In_candidates in Hin as (seat & Hseat & Hcand).
  apply candidate_inv in Hcand as (Ha & Hn & _ & _ & Hi & Hc & Hb).
  exists seat, (to_reference v).
  split; [exact Hseat|]. split; [now rewrite List.nth_error_map, Hv|].
  split; [now symmetry|]. split; [now symmetry|]. split; [now symmetry|].
  split; [exact Ha|]. split; [exact Hn|].
  apply existsb_exists in Hd as (dist & Hdist & Hd).
  exists dist. split; [exact Hdist|]. now rewrite <- Hc.
Qed.

Lemma entries_pass_the_filters_witness :
  let result := generateSelectionPayload two_seats ["Chennai"] []
                                         (threshold 85) "MBC" in
  exists seat r,
    In seat (seatMatrix two_seats)
    /\ nth_error (reference result) 1 = Some r
    /\ SeatData._id seat = "s2"
    /\ SeatData.colName seat = ref_college r
    /\ SeatData.branName seat = ref_branch r
    /\ SeatData.branCode seat ∈ allowedBranchCodes two_seats
    /\ (exists d, SeatData.get seat "MBC" = JNum d
                  /\ Num.gt (Fin d) Num.zero = true)
    /\ exists dist, In dist ["Chennai"]
                    /\ JS.includes (JS.toLowerCase (SeatData.colName seat))
                                   (JS.toLowerCase dist) = true.
Proof.
  apply (entries_pass_the_filters two_seats ["Chennai"] [] (threshold 85)
                                  "MBC" 1 "s2").
  vm_compute. reflexivity.
Defined.

(** C9. The selection ids and the references of the result have the same
    length, and at every index the reference carries the college name, the
    course name and the resolved cutoff of the very seat record whose id is
    the selection at that index. *)
Theorem selections_and_references_aligned (this : Session)
    (districtChoices topPrefDist : list string) (minCutoff : number)
    (category : string) :
  let result := generateSelectionPayload this districtChoices topPrefDist
                                         minCutoff category in
  List.length (selections result) = List.length (reference result)
  /\ forall (i : nat) (sel : string) (r : Reference),
       nth_error (selections result) i = Some sel ->
       nth_error (reference result) i = Some r ->
       exists seat c,
         In seat (seatMatrix this)
         /\ SeatData._id seat = sel
         /\ ref_college r = SeatData.colName seat
         /\ ref_branch r = SeatData.branName seat
         /\ matchingCutoff this seat = Some c
         /\ ref_cutoff r = cutoffScore category c.
Proof.
  intros result. unfold result.
  rewrite payload_selections, payload_reference.
  split; [now rewrite !length_map|].
  intros i sel r Hsel Href.
  rewrite List.nth_error_map in Hsel, Href.
  destruct (nth_error (finalSorted this districtChoices topPrefDist minCutoff
                                   category) i) as [v|] eqn:Hv;
    [|discriminate].
  injection Hsel as <-. injection Href as <-.
  pose proof (nth_error_In _ _ Hv) as Hin.
  apply In_finalSorted, In_filteredByDistrict in Hin as [Hin _].
  apply In_candidates in Hin as (seat & Hseat & Hcand).
  apply candidate_inv in Hcand as (_ & _ & (c & Hm & Hs) & _ & Hi & Hc & Hb).
  exists seat, c. simpl. auto 10.
Qed.

Lemma selections_and_references_aligned_witness :
  let result := generateSelectionPayload two_seats ["Chennai"] []
                                         (threshold 85) "MBC" in
  List.length (selections result) = 2
  /\ List.length (reference result) = 2
  /\ exists seat c,
       In seat (seatMatrix two_seats)
       /\ SeatData._id seat = "s2"
       /\ "Chennai Inst" = SeatData.colName seat
       /\ "Electronics" = SeatData.branName seat
       /\ matchingCutoff two_seats seat = Some c
       /\ Fin (Dec 905 1) = cutoffScore "MBC" c.
Proof.
  intros result.
  destruct (selections_and_references_aligned two_seats ["Chennai"] []
              (threshold 85) "MBC") as [Hlen Hat].
  split; [reflexivity|]. split; [reflexivity|].
  apply (Hat 1 "s2" (mkReference "Chennai Inst" "Electronics" (Fin (Dec 905 1))));
    vm_compute; reflexivity.
Defined.

(** C8, as the program has it.  The sort by cutoff is stable: two
    candidates with equal cutoffs stand after the sort in the order of
    their seats in the seat matrix; and they stand in that order in the
    result whenever both pass the district filter and both fall in the same
    group (both in [topPreferredHighCutoff] or both in [others]). *)
Theorem ties_keep_input_order_within_group (this : Session)
    (districtChoices topPrefDist : list string) (minCutoff : number)
    (category : string) (seat1 seat2 : SeatData.t) (x y : ValidSelection) :
  precedes seat1 seat2 (seatMatrix this) ->
  candidate this category seat1 = Some x ->
  candidate this category seat2 = Some y ->
  Num.eqn (cutoff x) (cutoff y) = true ->
  precedes x y (sorted this category)
  /\ (in_some_district districtChoices (college x) = true ->
      in_some_district districtChoices (college y) = true ->
      in_group_A topPrefDist minCutoff x = in_group_A topPrefDist minCutoff y ->
      precedes x y (finalSorted this districtChoices topPrefDist minCutoff
                                category)).
Proof.
  intros Hseats Hx Hy Heq.
  pose (p := fun v : ValidSelection => Num.eqn (cutoff v) (cutoff y)).
  assert (Hpy : p y = true).
  { apply candidate_inv in Hy as (_ & _ & _ & Hy & _).
    unfold p, Num.eqn. now rewrite compare_refl. }
  assert (Hsorted : precedes x y (sorted this category)).
  { apply (precedes_of_filter p). unfold sorted.
    rewrite sort_stable.
    - rewrite scan_validSelections.
      apply precedes_filter; [exact Heq|exact Hpy|].
      apply precedes_flat_map with (a := seat1) (b := seat2);
        [exact Hseats|rewrite Hx; now left|rewrite Hy; now left].
    - intros a b Hgt Ha. rewrite by_cutoff_desc_gt in Hgt.
      destruct (p b) eqn:Eb; [|reflexivity].
      rewrite (eqn_not_gt _ _ _ Ha Eb) in Hgt. discriminate. }
  split; [exact Hsorted|].
  intros Dx Dy Hgroup.
  rewrite finalSorted_eq.
  assert (HF : precedes x y (filteredByDistrict this districtChoices category)).
  { unfold filteredByDistrict. now apply precedes_filter. }
  destruct (in_group_A topPrefDist minCutoff y) eqn:Ey.
  - apply precedes_app_l. now apply precedes_filter.
  - apply precedes_app_r. apply precedes_filter; [| |exact HF].
    + now rewrite Hgroup.
    + now rewrite Ey.
Qed.

Lemma ties_keep_input_order_within_group_witness :
  let x := mkValidSelection "s1" "Chennai Inst" "Computer Science"
                            (Fin (Dec 905 1)) in
  let y := mkValidSelection "s2" "Chennai Inst" "Electronics"
                            (Fin (Dec 905 1)) in
  precedes x y (sorted two_seats "MBC")
  /\ (in_some_district ["Chennai"] (college x) = true ->
      in_some_district ["Chennai"] (college y) = true ->
      in_group_A ["Chennai"] (threshold 95) x
      = in_group_A ["Chennai"] (threshold 95) y ->
      precedes x y (finalSorted two_seats ["Chennai"] ["Chennai"]
                                (threshold 95) "MBC")).
Proof.
  intros x y.
  apply (ties_keep_input_order_within_group two_seats ["Chennai"] ["Chennai"]
           (threshold 95) "MBC" s1 s2 x y).
  - exists [], [], []. reflexivity.
  - vm_compute. reflexivity.
  - vm_compute. reflexivity.
  - vm_compute. reflexivity.
Defined.

(** The two scenarios of section 8: "s1" before "s2" with the default
    threshold, and with [topPrefDist = ["Chennai"]] and threshold 95, where
    neither is in the priority group. *)
Example scenario_ties :
  selections (generateSelectionPayload two_seats ["Chennai"] []
                                       (threshold 85) "MBC") = ["s1"; "s2"]
  /\ selections (generateSelectionPayload two_seats ["Chennai"] ["Chennai"]
                                          (threshold 95) "MBC") = ["s1"; "s2"]
  /\ topPreferredHighCutoff two_seats ["Chennai"] ["Chennai"] (threshold 95)
                            "MBC" = [].
Proof. vm_compute. repeat split; reflexivity. Qed.

(** C8, as it is written, fails: "m1" (Madurai, cutoff 90.5) is before "s1"
    (Chennai, cutoff 90.5) in the seat matrix, and with Chennai as top
    district and threshold 85 the result is "s1" then "m1". *)
Lemma tie_across_groups_reordered : ~ Stated.ties_in_input_order.
Proof.
  intros H.
  specialize (H two_colleges ["Chennai"; "Madurai"] ["Chennai"] (threshold 85)
                "MBC" m1 s1
                (mkValidSelection "m1" "Madurai Tech" "Computer Science"
                                  (Fin (Dec 905 1)))
                (mkValidSelection "s1" "Chennai Inst" "Computer Science"
                                  (Fin (Dec 905 1)))).
  destruct H as (l1 & l2 & l3 & E).
  - exists [], [], []. reflexivity.
  - vm_compute. reflexivity.
  - vm_compute. reflexivity.
  - vm_compute. reflexivity.
  - vm_compute. tauto.
  - vm_compute. tauto.
  - vm_compute in E.
    destruct l1 as [|a [|b l1]]; simpl in E.
    + discriminate.
    + injection E as _ E. destruct l2; discriminate.
    + injection E as _ _ E. destruct l1; discriminate.
Qed.

(** C2: a cutoff record whose value at the category is the number zero.
    The parse at the category gives 0, a number, and the score is the
    parse of OC, 95: the seat is ranked with 95. *)
Theorem zero_cutoff_replaced_by_OC :
  JS.parseFloat (JS.to_String (CutoffData.get cs_100_zero "MBC"))
  = Fin (Dec 0 0)
  /\ cutoffScore "MBC" cs_100_zero = Fin (Dec 95 0)
  /\ generateSelectionPayload zero_cutoff ["Chennai"] [] (threshold 85) "MBC"
     = mkPayload ["s1"]
                 [mkReference "Chennai Inst" "Computer Science" (Fin (Dec 95 0))].
Proof. vm_compute. repeat split; reflexivity. Qed.

(** With no OC value beside the zero, the seat is dropped although the parse
    at the category gave a number. *)
Example zero_cutoff_dropped :
  let c := cutoff_record 100 "CS" (JStr "0") JUndefined in
  let this := mkSession None [s1] [c] courses in
  JS.parseFloat (JS.to_String (CutoffData.get c "MBC")) = Fin (Dec 0 0)
  /\ Num.isNaN (cutoffScore "MBC" c) = true
  /\ generateSelectionPayload this ["Chennai"] [] (threshold 85) "MBC"
     = mkPayload [] []
  /\ withoutCutoff (scan this "MBC") = ["Chennai Inst"].
Proof. vm_compute. repeat split; reflexivity. Qed.

Lemma category_parse_does_not_always_win : ~ Stated.category_parse_wins.
Proof.
  intros H. specialize (H "MBC" cs_100_zero eq_refl). vm_compute in H.
  discriminate.
Qed.

(** What does hold of the score: a parse at the category that gives a number
    other than zero is the score; the seat is dropped, and its college name
    noted once, exactly when the score is NaN. *)
Lemma nonzero_category_parse_wins (category : string) (c : CutoffData.t) :
  Num.truthy (JS.parseFloat (JS.to_String (CutoffData.get c category))) = true ->
  cutoffScore category c
  = JS.parseFloat (JS.to_String (CutoffData.get c category)).
Proof. apply cutoffScore_cases. Qed.

Lemma unparsed_dropped (this : Session) (category : string) (st : Scan)
    (seat : SeatData.t) (c : CutoffData.t) :
  matchingCutoff this seat = Some c ->
  Num.isNaN (cutoffScore category c) = true ->
  validSelections (scan_seat this category st seat) = validSelections st.
Proof.
  intros Hm Hn. rewrite scan_seat_pushes. unfold candidate.
  destruct (negb _); [now rewrite List.app_nil_r|].
  destruct (no_seats _); [now rewrite List.app_nil_r|].
  rewrite Hm. simpl. rewrite Hn. now rewrite List.app_nil_r.
Qed.

End RankingProps.

(** ** The handlers: preconditions and the session fields *)

Module HandlerProps.

Import Ranker RankerFacts Server Scenario.

Lemma no_district_no_selection (this : Session) (topPrefDist : list string)
    (minCutoff : number) (category : string) :
  generateSelectionPayload this [] topPrefDist minCutoff category
  = mkPayload [] [].
Proof.
  unfold generateSelectionPayload.
  rewrite finalSorted_eq.
  assert (H : filteredByDistrict this [] category = []).
  { unfold filteredByDistrict. induction (sorted this category);
      simpl; auto. }
  rewrite H. reflexivity.
Qed.

(** C1, as the program has it.  [generate_choices] throws when
    [districtChoices] is missing or is not an array, and the session fields
    are as they were; when [districtChoices] is the empty array and the
    three data sets are loaded it does not throw: the ranking runs, its
    selection list is empty, and the reply reports zero choices. *)
Theorem districtChoices_must_be_an_array (s : Session)
    (args : GenerateChoicesArgs) :
  (isArray (districtChoices args) = false ->
   exists e, handleGenerateChoices args s = (Throw e, s))
  /\ (districtChoices args = StringArray [] ->
      seatMatrix s <> [] -> cutoffData s <> [] -> preferredCourses s <> [] ->
      handleGenerateChoices args s = (Return (Generated 0 [] None), s)
      /\ forall topPrefDist minCutoff category,
           generateSelectionPayload s [] topPrefDist minCutoff category
           = mkPayload [] []).
Proof.
  unfold handleGenerateChoices, bind, this, throw, ret.
  split.
  - intros Harr.
    destruct (seatMatrix s); simpl; [eauto|].
    destruct (cutoffData s); simpl; [eauto|].
    destruct (preferredCourses s); simpl; [eauto|].
    rewrite Harr, orb_true_r. eauto.
  - intros Hd Hs Hc Hp.
    assert (Es : (List.length (seatMatrix s) =? 0)%nat = false)
      by (destruct (seatMatrix s); [contradiction|reflexivity]).
    assert (Ec : (List.length (cutoffData s) =? 0)%nat = false)
      by (destruct (cutoffData s); [contradiction|reflexivity]).
    assert (Ep : (List.length (preferredCourses s) =? 0)%nat = false)
      by (destruct (preferredCourses s); [contradiction|reflexivity]).
    rewrite Es, Ec, Ep, Hd.
    cbn [arg_truthy isArray negb orb array_items].
    rewrite no_district_no_selection.
    split; [reflexivity|]. intros; apply no_district_no_selection.
Qed.

Lemma districtChoices_must_be_an_array_witness :
  (exists e, handleGenerateChoices (mkArgs Missing None None None) two_seats
             = (Throw e, two_seats))
  /\ handleGenerateChoices (args_of []) two_seats
     = (Return (Generated 0 [] None), two_seats)
  /\ forall topPrefDist minCutoff category,
       generateSelectionPayload two_seats [] topPrefDist minCutoff category
       = mkPayload [] [].
Proof.
  split.
  - apply (districtChoices_must_be_an_array two_seats
             (mkArgs Missing None None None)).
    reflexivity.
  - apply (districtChoices_must_be_an_array two_seats (args_of []));
      [reflexivity|discriminate|discriminate|discriminate].
Defined.

(** C1, as it is written, fails: with the data of section 8 loaded and
    [districtChoices = []] the handler returns. *)
Lemma empty_districtChoices_accepted : ~ Stated.empty_districtChoices_rejected.
Proof.
  intros H.
  destruct (H two_seats (args_of []) eq_refl) as [e He].
  vm_compute in He. discriminate.
Qed.

(** *** Which handler replaces which field *)

Lemma rethrow_state {A} (m : M A) (f : Error -> Error) (s : Session) :
  snd (try_catch m (fun e => throw (f e)) s) = snd (m s).
Proof.
  unfold try_catch, throw. destruct (m s) as [[a|e] s']; reflexivity.
Qed.

Lemma handleGenerateChoices_state (args : GenerateChoicesArgs) (s : Session) :
  snd (handleGenerateChoices args s) = s.
Proof.
  unfold handleGenerateChoices, bind, this, throw, ret.
  repeat match goal with
         | |- context [if ?b then _ else _] => destruct b
         end; reflexivity.
Qed.

Lemma handleLogin_state (answer : Answer LoginResponse) (s : Session) :
  let s' := snd (handleLogin answer s) in
  seatMatrix s' = seatMatrix s /\ cutoffData s' = cutoffData s
  /\ preferredCourses s' = preferredCourses s.
Proof.
  unfold handleLogin, try_catch, bind, await, assign_sessionId, throw, ret.
  destruct answer as [msg|data]; simpl; [auto|].
  destruct (negb (String.eqb (login_sessionId data) "")); simpl; auto.
Qed.

Lemma handleGetAvailableSeats_state (answer : Answer (list SeatData.t))
    (written : Answer unit) (s : Session) :
  let s' := snd (handleGetAvailableSeats answer written s) in
  sessionId s' = sessionId s /\ cutoffData s' = cutoffData s
  /\ preferredCourses s' = preferredCourses s.
Proof.
  unfold handleGetAvailableSeats, try_catch, bind, this, await,
    assign_seatMatrix, throw, ret.
  destruct (not_logged_in s); simpl; [auto|].
  destruct answer as [msg|data]; simpl; [auto|].
  destruct written as [msg|[]]; simpl; auto.
Qed.

Lemma handleLoadCutoffData_state (file : Answer (list CutoffData.t))
    (s : Session) :
  let s' := snd (handleLoadCutoffData file s) in
  sessionId s' = sessionId s /\ seatMatrix s' = seatMatrix s
  /\ preferredCourses s' = preferredCourses s.
Proof.
  unfold handleLoadCutoffData, try_catch, bind, this, await,
    assign_cutoffData, throw, ret.
  destruct file as [msg|data]; simpl; auto.
Qed.

Lemma handleLoadCoursePreferences_state (file : Answer (list Course.t))
    (s : Session) :
  let s' := snd (handleLoadCoursePreferences file s) in
  sessionId s' = sessionId s /\ seatMatrix s' = seatMatrix s
  /\ cutoffData s' = cutoffData s.
Proof.
  unfold handleLoadCoursePreferences, try_catch, bind, this, await,
    assign_preferredCourses, throw, ret.
  destruct file as [msg|data]; simpl; auto.
Qed.

Lemma handleSubmitChoices_state (selections : list string)
    (answer : Answer unit) (s : Session) :
  snd (handleSubmitChoices selections answer s) = s.
Proof.
  unfold handleSubmitChoices, try_catch, bind, this, await, throw, ret.
  destruct (not_logged_in s); simpl; [reflexivity|].
  destruct answer as [msg|[]]; reflexivity.
Qed.

(** C10, as the program has it.  [generate_choices] leaves the session as it
    was, whether it returns or throws; and a tool call after which the
    session id, the seat matrix, the cutoff data or the preferred courses
    differ is, in that order, a login, a fetch of the seats, a load of the
    cutoff data or a load of the course preferences. *)
Theorem session_replaced_only_by_login_fetch_load (r : Request) (s : Session) :
  let s' := snd (callTool r s) in
  (forall args, snd (handleGenerateChoices args s) = s)
  /\ (forall args, r = generate_choices args -> s' = s)
  /\ (sessionId s' <> sessionId s -> exists args answer, r = login args answer)
  /\ (seatMatrix s' <> seatMatrix s ->
      exists answer written, r = get_available_seats answer written)
  /\ (cutoffData s' <> cutoffData s -> exists file, r = load_cutoff_data file)
  /\ (preferredCourses s' <> preferredCourses s ->
      exists file, r = load_course_preferences file).
Proof.
  intros s'. split; [intros args; apply handleGenerateChoices_state|].
  assert (Hsame : forall m : M Reply,
             snd (m s) = s ->
             snd (try_catch m (fun e => throw (InternalError (tool_name r) e)) s)
             = s).
  { intros m Hm. now rewrite rethrow_state. }
  unfold s', callTool.
  destruct r as [args answer|answer written|file|file|args|args answer| |name].
  - assert (H : seatMatrix (snd (callTool (login args answer) s)) = seatMatrix s
                /\ cutoffData (snd (callTool (login args answer) s)) = cutoffData s
                /\ preferredCourses (snd (callTool (login args answer) s))
                   = preferredCourses s).
    { unfold callTool. rewrite rethrow_state.
      destruct args as [[[| | | |email] [| | | |password]]|];
        try (simpl; auto); apply handleLogin_state. }
    unfold callTool in H. destruct H as (H1 & H2 & H3).
    split; [discriminate|]. split; [eauto|].
    split; [intros C; now destruct C|].
    split; intros C; now destruct C.
  - rewrite rethrow_state.
    destruct (handleGetAvailableSeats_state answer written s) as (H1 & H2 & H3).
    split; [discriminate|]. split; [intros C; now destruct C|].
    split; [eauto|]. split; intros C; now destruct C.
  - rewrite rethrow_state.
    destruct (handleLoadCutoffData_state file s) as (H1 & H2 & H3).
    split; [discriminate|]. split; [intros C; now destruct C|].
    split; [intros C; now destruct C|].
    split; [eauto|]. intros C; now destruct C.
  - rewrite rethrow_state.
    destruct (handleLoadCoursePreferences_state file s) as (H1 & H2 & H3).
    split; [discriminate|]. split; [intros C; now destruct C|].
    split; [intros C; now destruct C|].
    split; [intros C; now destruct C|]. eauto.
  - rewrite Hsame
      by (destruct args; [apply handleGenerateChoices_state|reflexivity]).
    split; [reflexivity|]. repeat split; intros C; now destruct C.
  - rewrite Hsame
      by (destruct args as [[| |]|];
          try reflexivity; apply handleSubmitChoices_state).
    split; [discriminate|]. repeat split; intros C; now destruct C.
  - rewrite Hsame by reflexivity.
    split; [discriminate|]. repeat split; intros C; now destruct C.
  - rewrite Hsame by reflexivity.
    split; [discriminate|]. repeat split; intros C; now destruct C.
Qed.

Lemma session_replaced_only_by_login_fetch_load_witness :
  exists args answer,
    login (Some (JStr "student", JStr "secret")) (inr welcome)
    = login args answer.
Proof.
  apply (session_replaced_only_by_login_fetch_load
           (login (Some (JStr "student", JStr "secret")) (inr welcome))
           two_seats).
  vm_compute. discriminate.
Defined.

(** C10, as it is written, fails: a login replaces the session id, and it is
    neither the fetch nor a load. *)
Lemma login_replaces_sessionId : ~ Stated.only_fetch_and_load_replace.
Proof.
  intros H.
  specialize (H (login (Some (JStr "student", JStr "secret")) (inr welcome))
                two_seats).
  simpl in H. assert (false = true); [|discriminate].
  apply H. vm_compute. discriminate.
Qed.

End HandlerProps.

(** ** The ranking: what else the result satisfies *)

Module RankingMore.

Import Ranker ListFacts SortFacts NumFacts RankerFacts LookupFacts Scenario.

Lemma filter_permutation {A} (p : A -> bool) (l l' : list A) :
  Permutation l l' -> Permutation (List.filter p l) (List.filter p l').
Proof.
  induction 1 as [|x l l' _ IH|x y l|l l' l'' _ IH1 _ IH2]; simpl.
  - constructor.
  - destruct (p x); [now constructor|exact IH].
  - destruct (p x), (p y); try reflexivity. apply perm_swap.
  - now transitivity (List.filter p l').
Qed.

Lemma split_permutation {A} (p : A -> bool) (l : list A) :
  Permutation (List.filter p l ++ List.filter (fun x => negb (p x)) l) l.
Proof.
  induction l as [|x l IH]; simpl; [constructor|].
  destruct (p x); simpl.
  - now constructor.
  - rewrite <- Permutation_middle. now constructor.
Qed.

Section Result.

Variable this : Session.
Variables districtChoices topPrefDist : list string.
Variable minCutoff : number.
Variable category : string.

Lemma finalSorted_permutation :
  Permutation
    (finalSorted this districtChoices topPrefDist minCutoff category)
    (List.filter (fun v => in_some_district districtChoices (college v))
                 (candidates this category (seatMatrix this))).
Proof.
  rewrite finalSorted_eq, split_permutation.
  unfold filteredByDistrict, sorted. rewrite scan_validSelections.
  apply filter_permutation, sort_perm.
Qed.

Lemma candidates_length (seats : list SeatData.t) :
  List.length (candidates this category seats) <= List.length seats.
Proof.
  induction seats as [|seat seats IH]; simpl; [lia|].
  rewrite length_app.
  destruct (candidate this category seat); simpl; lia.
Qed.

Lemma filter_length_le {A} (p : A -> bool) (l : list A) :
  List.length (List.filter p l) <= List.length l.
Proof.
  induction l as [|x l IH]; simpl; [lia|]. destruct (p x); simpl; lia.
Qed.

(** X1. A seat of the seat matrix whose course is allowed, whose count at
    the category is a positive number, whose cutoff record gives a numeric
    score and whose college name matches an entry of [districtChoices] is in
    the result: its id is a selection, with its names and score as the
    reference at the same index. *)
Theorem eligible_seat_is_selected (seat : SeatData.t) (c : CutoffData.t) :
  In seat (seatMatrix this) ->
  SeatData.branCode seat ∈ allowedBranchCodes this ->
  no_seats (SeatData.get seat category) = false ->
  matchingCutoff this seat = Some c ->
  Num.isNaN (cutoffScore category c) = false ->
  in_some_district districtChoices (SeatData.colName seat) = true ->
  let result := generateSelectionPayload this districtChoices topPrefDist
                                         minCutoff category in
  exists i,
    nth_error (selections result) i = Some (SeatData._id seat)
    /\ nth_error (reference result) i
       = Some (mkReference (SeatData.colName seat) (SeatData.branName seat)
                           (cutoffScore category c)).
Proof.
  intros Hin Hallowed Hseats Hm Hscore Hdist result.
  pose (v := mkValidSelection (SeatData._id seat) (SeatData.colName seat)
                              (SeatData.branName seat) (cutoffScore category c)).
  assert (Hc : candidate this category seat = Some v).
  { unfold candidate. rewrite (bool_decide_eq_true_2 _ Hallowed). simpl.
    now rewrite Hseats, Hm, Hscore. }
  assert (Hv : In v (finalSorted this districtChoices topPrefDist minCutoff
                                 category)).
  { apply In_finalSorted, In_filteredByDistrict. split; [|exact Hdist].
    apply In_candidates. now exists seat. }
  apply In_nth_error in Hv as [i Hi]. exists i.
  unfold result. rewrite payload_selections, payload_reference.
  rewrite !List.nth_error_map, Hi. split; reflexivity.
Qed.

(** X2. The selection list is a rearrangement of the ids of the candidates
    whose college name matches an entry of [districtChoices]: none is lost
    and none is repeated; so it is never longer than the seat matrix. *)
Theorem selections_rearrange_the_matching_candidates :
  let result := generateSelectionPayload this districtChoices topPrefDist
                                         minCutoff category in
  Permutation
    (selections result)
    (map id (List.filter
               (fun v => in_some_district districtChoices (college v))
               (candidates this category (seatMatrix this))))
  /\ List.length (selections result) <= List.length (seatMatrix this).
Proof.
  intros result. unfold result. rewrite payload_selections.
  split.
  - apply Permutation_map, finalSorted_permutation.
  - rewrite length_map, (Permutation_length finalSorted_permutation).
    etransitivity; [apply filter_length_le|apply candidates_length].
Qed.

Lemma candidate_ids (seats : list SeatData.t) (x : string) :
  In x (map id (candidates this category seats)) ->
  In x (map SeatData._id seats).
Proof.
  intros H. apply in_map_iff in H as (v & <- & Hv).
  apply In_candidates in Hv as (seat & Hseat & Hc).
  apply candidate_inv in Hc as (_ & _ & _ & _ & -> & _).
  now apply in_map.
Qed.

Lemma candidates_NoDup (seats : list SeatData.t) :
  List.NoDup (map SeatData._id seats) ->
  List.NoDup (map id (candidates this category seats)).
Proof.
  induction seats as [|seat seats IH]; simpl; [constructor|].
  intros H. inversion H as [|? ? Hnot Hrest]; subst.
  rewrite map_app.
  destruct (candidate this category seat) as [v|] eqn:Hc; simpl; [|auto].
  constructor; [|auto].
  apply candidate_inv in Hc as (_ & _ & _ & _ & -> & _).
  intros Hin. apply Hnot. now apply candidate_ids.
Qed.

Lemma filter_map_NoDup {A B} (f : A -> B) (p : A -> bool) (l : list A) :
  List.NoDup (map f l) -> List.NoDup (map f (List.filter p l)).
Proof.
  induction l as [|x l IH]; simpl; [constructor|].
  intros H. inversion H as [|? ? Hnot Hrest]; subst.
  destruct (p x); simpl; [|auto].
  constructor; [|auto].
  intros Hin. apply Hnot.
  apply in_map_iff in Hin as (y & Hy & Hin).
  apply List.filter_In in Hin as [Hin _].
  rewrite <- Hy. now apply in_map.
Qed.

(** X3. When the ids of the seat matrix are pairwise different, so are the
    selections: no seat is put twice in the list to submit. *)
Theorem selections_without_repetition :
  List.NoDup (map SeatData._id (seatMatrix this)) ->
  List.NoDup (selections (generateSelectionPayload this districtChoices topPrefDist
                                              minCutoff category)).
Proof.
  intros H. rewrite payload_selections.
  eapply Permutation.Permutation_NoDup.
  - symmetry. apply Permutation_map, finalSorted_permutation.
  - apply filter_map_NoDup, candidates_NoDup, H.
Qed.

(** X4. No reference of the result carries NaN as its cutoff: a seat whose
    score is NaN is dropped before the sort. *)
Theorem references_have_numeric_cutoffs :
  Forall (fun r => Num.isNaN (ref_cutoff r) = false)
         (reference (generateSelectionPayload this districtChoices topPrefDist
                                              minCutoff category)).
Proof.
  rewrite payload_reference. apply List.Forall_forall. intros r Hr.
  apply in_map_iff in Hr as (v & <- & Hv).
  apply In_finalSorted, In_filteredByDistrict in Hv as [Hv _].
  apply In_candidates in Hv as (seat & _ & Hc).
  now apply candidate_inv in Hc.
Qed.

End Result.

Lemma eligible_seat_is_selected_witness :
  exists i,
    nth_error (selections (generateSelectionPayload two_seats ["Chennai"] []
                                                    (threshold 85) "MBC")) i
    = Some (SeatData._id s2)
    /\ nth_error (reference (generateSelectionPayload two_seats ["Chennai"] []
                                                      (threshold 85) "MBC")) i
       = Some (mkReference (SeatData.colName s2) (SeatData.branName s2)
                           (cutoffScore "MBC" cs_100)).
Proof.
  apply (eligible_seat_is_selected two_seats ["Chennai"] [] (threshold 85)
                                   "MBC" s2 cs_100).
  - right. now left.
  - vm_compute. reflexivity.
  - vm_compute. reflexivity.
  - vm_compute. reflexivity.
  - vm_compute. reflexivity.
  - vm_compute. reflexivity.
Defined.

Lemma selections_without_repetition_witness :
  List.NoDup (selections (generateSelectionPayload with_unmatched ["Chennai"]
                                                   ["Chennai"] (threshold 85)
                                                   "MBC")).
Proof.
  apply (selections_without_repetition with_unmatched ["Chennai"] ["Chennai"]
                                       (threshold 85) "MBC").
  simpl. repeat constructor; simpl; intuition discriminate.
Defined.

Lemma filter_nothing {A} (p : A -> bool) (l : list A) :
  (forall x, p x = false) -> List.filter p l = [].
Proof.
  intros H; induction l as [|x l IH]; simpl; [reflexivity|]. now rewrite H.
Qed.

Lemma filter_everything {A} (p : A -> bool) (l : list A) :
  (forall x, In x l -> p x = true) -> List.filter p l = l.
Proof.
  induction l as [|x l IH]; intros H; simpl; [reflexivity|].
  rewrite (H x (or_introl eq_refl)). f_equal. apply IH. intros y Hy.
  apply H. now right.
Qed.

Lemma map_sorted {A B} (R : A -> A -> Prop) (R' : B -> B -> Prop) (f : A -> B)
    (l : list A) :
  (forall a b, R a b -> R' (f a) (f b)) ->
  StronglySorted R l -> StronglySorted R' (map f l).
Proof.
  intros H; induction 1 as [|x l Hs IH Hx]; simpl; constructor; [exact IH|].
  apply List.Forall_forall. intros y Hy.
  apply in_map_iff in Hy as (z & <- & Hz).
  rewrite List.Forall_forall in Hx. auto.
Qed.

Lemma no_top_district_final (this : Session) (districtChoices : list string)
    (minCutoff : number) (category : string) :
  finalSorted this districtChoices [] minCutoff category
  = filteredByDistrict this districtChoices category.
Proof.
  rewrite finalSorted_eq.
  rewrite filter_nothing by reflexivity.
  now rewrite filter_everything by reflexivity.
Qed.

(** X5. When [topPrefDist] is empty, as it is by default, no item is put in
    the priority group: the cutoffs of the whole reference list are
    non-increasing, and [minCutoff] has no effect on the result. *)
Theorem without_top_districts_descending (this : Session)
    (districtChoices : list string) (minCutoff : number) (category : string) :
  let result := generateSelectionPayload this districtChoices [] minCutoff
                                         category in
  StronglySorted (fun r r' => Num.ge (ref_cutoff r) (ref_cutoff r') = true)
                 (reference result)
  /\ forall minCutoff',
       generateSelectionPayload this districtChoices [] minCutoff' category
       = result.
Proof.
  intros result. unfold result. split.
  - rewrite payload_reference, no_top_district_final.
    apply (map_sorted cutoff_ge); [intros a b H; exact H|].
    apply filter_sorted, sorted_is_descending.
  - intros minCutoff'. unfold generateSelectionPayload.
    now rewrite !no_top_district_final.
Qed.

(** X6. When no seat record has a number at the category (a category that
    names no count of the records, for one), nothing throws and the result
    is empty. *)
Theorem category_without_counts_selects_nothing (this : Session)
    (districtChoices topPrefDist : list string) (minCutoff : number)
    (category : string) :
  (forall seat, In seat (seatMatrix this) ->
                JS.is_number (SeatData.get seat category) = false) ->
  generateSelectionPayload this districtChoices topPrefDist minCutoff category
  = mkPayload [] [].
Proof.
  intros H.
  assert (Hc : candidates this category (seatMatrix this) = []).
  { unfold candidates. induction (seatMatrix this) as [|seat seats IH];
      simpl; [reflexivity|].
    rewrite IH by (intros s Hs; apply H; now right).
    unfold candidate.
    specialize (H seat (or_introl eq_refl)).
    destruct (negb _); [reflexivity|].
    destruct (SeatData.get seat category); try reflexivity. discriminate. }
  unfold generateSelectionPayload. rewrite finalSorted_eq.
  unfold filteredByDistrict, sorted. rewrite scan_validSelections, Hc.
  reflexivity.
Qed.

Lemma category_without_counts_selects_nothing_witness :
  generateSelectionPayload two_seats ["Chennai"] [] (threshold 85) "general"
  = mkPayload [] [].
Proof.
  apply (category_without_counts_selects_nothing two_seats ["Chennai"] []
           (threshold 85) "general").
  intros seat [<-|[<-|[]]]; reflexivity.
Defined.

Lemma includes_empty (s : string) : JS.includes s "" = true.
Proof. destruct s; reflexivity. Qed.

(** X7. An empty string among [districtChoices] matches every college name:
    the district filter then keeps every sorted candidate. *)
Theorem empty_district_matches_every_college (this : Session)
    (districtChoices : list string) (category : string) :
  In "" districtChoices ->
  filteredByDistrict this districtChoices category = sorted this category.
Proof.
  intros H. unfold filteredByDistrict. apply filter_everything.
  intros v _. apply existsb_exists. exists "". split; [exact H|].
  apply includes_empty.
Qed.

Lemma empty_district_matches_every_college_witness :
  filteredByDistrict two_colleges ["Salem"; ""] "MBC" = sorted two_colleges "MBC".
Proof.
  apply (empty_district_matches_every_college two_colleges ["Salem"; ""] "MBC").
  right. now left.
Defined.

Lemma in_some_district_lowered (dists : list string) (name : string) :
  in_some_district dists name
  = existsb (fun d => JS.includes (normalize name) d) (map JS.toLowerCase dists).
Proof.
  unfold in_some_district, normalize.
  induction dists as [|d dists IH]; simpl; [reflexivity|]. now rewrite IH.
Qed.

(** X8. The result depends on the entries of [districtChoices] and of
    [topPrefDist] only up to the case of their letters: two lists of
    entries that are equal once lowered give the same result. *)
Theorem district_entries_compared_without_case (this : Session)
    (districtChoices districtChoices' topPrefDist topPrefDist' : list string)
    (minCutoff : number) (category : string) :
  map JS.toLowerCase districtChoices = map JS.toLowerCase districtChoices' ->
  map JS.toLowerCase topPrefDist = map JS.toLowerCase topPrefDist' ->
  generateSelectionPayload this districtChoices topPrefDist minCutoff category
  = generateSelectionPayload this districtChoices' topPrefDist' minCutoff
                             category.
Proof.
  intros Hd Ht.
  assert (HF : filteredByDistrict this districtChoices category
               = filteredByDistrict this districtChoices' category).
  { unfold filteredByDistrict. apply List.filter_ext. intros v.
    now rewrite !in_some_district_lowered, Hd. }
  assert (HA : forall v, in_group_A topPrefDist minCutoff v
                         = in_group_A topPrefDist' minCutoff v).
  { intros v. unfold in_group_A. now rewrite !in_some_district_lowered, Ht. }
  unfold generateSelectionPayload. rewrite !finalSorted_eq, HF.
  rewrite (List.filter_ext _ _ HA).
  rewrite (List.filter_ext (fun v => negb (in_group_A topPrefDist minCutoff v))
                           (fun v => negb (in_group_A topPrefDist' minCutoff v)))
    by (intros v; now rewrite HA).
  reflexivity.
Qed.

Lemma district_entries_compared_without_case_witness :
  generateSelectionPayload two_colleges ["CHENNAI"; "madurai"] ["Chennai"]
                           (threshold 85) "MBC"
  = generateSelectionPayload two_colleges ["chennai"; "MADURAI"] ["cHENNAI"]
                             (threshold 85) "MBC".
Proof.
  apply (district_entries_compared_without_case two_colleges
           ["CHENNAI"; "madurai"] ["chennai"; "MADURAI"] ["Chennai"] ["cHENNAI"]
           (threshold 85) "MBC"); reflexivity.
Defined.

Section Bookkeeping.

Import Fate.

Variable this : Session.
Variable category : string.

Lemma scan_seat_unMatched (st : Scan) (seat : SeatData.t) :
  unMatched (scan_seat this category st seat)
  = unMatched st + (if unresolved this category seat then 1 else 0).
Proof.
  unfold scan_seat, unresolved, looked_up.
  destruct (bool_decide (SeatData.branCode seat ∈ allowedBranchCodes this));
    simpl; [|lia].
  destruct (no_seats (SeatData.get seat category)); simpl; [lia|].
  destruct (matchingCutoff this seat) as [c|]; simpl; [|lia].
  destruct (Num.isNaN (cutoffScore category c)); [|simpl; lia].
  destruct (negb _); simpl; lia.
Qed.

Lemma scan_fold_unMatched (seats : list SeatData.t) (st : Scan) :
  unMatched (fold_left (scan_seat this category) seats st)
  = unMatched st + List.length (List.filter (unresolved this category) seats).
Proof.
  revert st; induction seats as [|seat seats IH]; intros st; simpl; [lia|].
  rewrite IH, scan_seat_unMatched.
  destruct (unresolved this category seat); simpl; lia.
Qed.

Lemma fates_partition (seats : list SeatData.t) :
  List.length (candidates this category seats)
  + List.length (List.filter (unresolved this category) seats)
  + List.length (List.filter (unscored this category) seats)
  + List.length (List.filter (fun seat => negb (looked_up this category seat))
                             seats)
  = List.length seats.
Proof.
  induction seats as [|seat seats IH]; simpl; [reflexivity|].
  rewrite length_app.
  unfold candidates, candidate, unresolved, unscored, looked_up in *.
  destruct (bool_decide (SeatData.branCode seat ∈ allowedBranchCodes this));
    simpl; [|lia].
  destruct (no_seats (SeatData.get seat category)); simpl; [lia|].
  destruct (matchingCutoff this seat) as [c|]; simpl; [|lia].
  destruct (Num.isNaN (cutoffScore category c)); simpl; lia.
Qed.

(** X9. At the end of the first loop [unMatched] is the number of seat
    records that pass the course and seat-count tests and have no cutoff
    record; and every seat record of the seat matrix is counted once among
    the valid selections, the unmatched, those whose score is NaN and those
    skipped by the two tests. *)
Theorem every_seat_is_accounted_for :
  let st := scan this category in
  unMatched st
  = List.length (List.filter (unresolved this category) (seatMatrix this))
  /\ List.length (validSelections st) + unMatched st
     + List.length (List.filter (unscored this category) (seatMatrix this))
     + List.length (List.filter (fun seat => negb (looked_up this category seat))
                                (seatMatrix this))
     = List.length (seatMatrix this).
Proof.
  intros st.
  assert (Hu : unMatched st
               = List.length (List.filter (unresolved this category)
                                          (seatMatrix this))).
  { unfold st, scan. now rewrite scan_fold_unMatched. }
  split; [exact Hu|].
  rewrite Hu. unfold st. rewrite scan_validSelections. apply fates_partition.
Qed.

Lemma listed (x : string) (l : list string) :
  existsb (String.eqb x) l = true <-> In x l.
Proof.
  rewrite existsb_exists. split.
  - intros (y & Hy & E). apply String.eqb_eq in E. now subst.
  - intros H. exists x. split; [exact H|apply String.eqb_refl].
Qed.

Lemma NoDup_snoc (x : string) (l : list string) :
  ~ In x l -> List.NoDup l -> List.NoDup (l ++ [x]).
Proof.
  intros Hx Hl; induction Hl as [|y l Hy Hl IH]; simpl.
  - constructor; [intros []|constructor].
  - constructor.
    + rewrite in_app_iff. intros [H|[->|[]]]; [auto|]. apply Hx. now left.
    + apply IH. intros H. apply Hx. now right.
Qed.

Lemma scan_seat_withoutCutoff (st : Scan) (seat : SeatData.t) :
  withoutCutoff (scan_seat this category st seat)
  = if unscored this category seat
       && negb (existsb (String.eqb (SeatData.colName seat)) (withoutCutoff st))
    then withoutCutoff st ++ [SeatData.colName seat]
    else withoutCutoff st.
Proof.
  unfold scan_seat, unscored, looked_up.
  destruct (bool_decide (SeatData.branCode seat ∈ allowedBranchCodes this));
    simpl; [|reflexivity].
  destruct (no_seats (SeatData.get seat category)); simpl; [reflexivity|].
  destruct (matchingCutoff this seat) as [c|]; simpl; [|reflexivity].
  destruct (Num.isNaN (cutoffScore category c)); simpl; [|reflexivity].
  destruct (negb _); reflexivity.
Qed.

Lemma scan_fold_withoutCutoff (seats : list SeatData.t) (st : Scan) :
  List.NoDup (withoutCutoff st) ->
  List.NoDup (withoutCutoff (fold_left (scan_seat this category) seats st))
  /\ forall name,
       In name (withoutCutoff (fold_left (scan_seat this category) seats st))
       <-> In name (withoutCutoff st)
           \/ exists seat, In seat seats
                           /\ unscored this category seat = true
                           /\ SeatData.colName seat = name.
Proof.
  revert st; induction seats as [|seat seats IH]; intros st Hst; simpl.
  - split; [exact Hst|]. intros name. split; [auto|].
    intros [H|(seat & [] & _)]. exact H.
  - assert (Hstep : List.NoDup (withoutCutoff (scan_seat this category st seat))
                    /\ forall name,
                         In name (withoutCutoff (scan_seat this category st seat))
                         <-> In name (withoutCutoff st)
                             \/ (unscored this category seat = true
                                 /\ SeatData.colName seat = name)).
    { rewrite scan_seat_withoutCutoff.
      destruct (unscored this category seat); simpl.
      - destruct (existsb (String.eqb (SeatData.colName seat)) (withoutCutoff st))
          eqn:E; simpl.
        + apply listed in E. split; [exact Hst|].
          intros name. split; [auto|]. intros [H|[_ <-]]; assumption.
        + split.
          * apply NoDup_snoc; [|exact Hst]. intros H. apply listed in H.
            congruence.
          * intros name. rewrite in_app_iff. simpl. intuition.
      - split; [exact Hst|]. intros name. intuition discriminate. }
    destruct Hstep as [Hnd Hin].
    destruct (IH _ Hnd) as [IH1 IH2]. split; [exact IH1|].
    intros name. rewrite IH2, Hin. split.
    + intros [[H|[Hu Hn]]|(s & Hs & Hu & Hn)]; [now left| |].
      * right. exists seat. auto.
      * right. exists s. auto.
    + intros [H|(s & [<-|Hs] & Hu & Hn)]; [now left; left| |].
      * left. right. auto.
      * right. exists s. auto.
Qed.

(** X10. At the end of the first loop [withoutCutoff] holds no name twice,
    and it holds exactly the college names of the seat records that were
    looked up and whose cutoff record gave NaN as score. *)
Theorem withoutCutoff_names_each_college_once :
  List.NoDup (withoutCutoff (scan this category))
  /\ forall name,
       In name (withoutCutoff (scan this category))
       <-> exists seat, In seat (seatMatrix this)
                        /\ unscored this category seat = true
                        /\ SeatData.colName seat = name.
Proof.
  destruct (scan_fold_withoutCutoff (seatMatrix this) (mkScan [] 0 []))
    as [H1 H2]; [constructor|].
  split; [exact H1|].
  intros name. unfold scan. rewrite H2. simpl. tauto.
Qed.

End Bookkeeping.

(** X11. When the cutoff data has a record of the seat's own (college code,
    course code) pair, the seat resolves to the first such record, whatever
    "CS" records of the college stand before it. *)
Theorem own_record_before_fallback (this : Session) (seat : SeatData.t) :
  (exists c, In c (cutoffData this) /\ same_college seat c
             /\ CutoffData.brc c = SeatData.branCode seat) ->
  exists pre c post,
    cutoffData this = pre ++ c :: post
    /\ same_college seat c
    /\ CutoffData.brc c = SeatData.branCode seat
    /\ (forall c', In c' pre ->
                   ~ (same_college seat c'
                      /\ CutoffData.brc c' = SeatData.branCode seat))
    /\ matchingCutoff this seat = Some c.
Proof.
  intros Hown.
  destruct (find_first
              (fun c => String.eqb (JS.to_String (CutoffData.coc c))
                                   (JS.to_String (SeatData.colCode seat))
                        && String.eqb (CutoffData.brc c) (SeatData.branCode seat))
              (cutoffData this))
    as (pre & c & post & Hsplit & Hc & Hpre & Hfind).
  { destruct Hown as (c & Hin & Hcol & Hbrc). exists c. split; [exact Hin|].
    apply andb_true_iff. split; now apply String.eqb_eq. }
  apply andb_prop in Hc as [Hc1 Hc2]. apply String.eqb_eq in Hc1, Hc2.
  exists pre, c, post.
  split; [exact Hsplit|]. split; [exact Hc1|]. split; [exact Hc2|]. split.
  - intros c' Hin [H1 H2]. specialize (Hpre c' Hin).
    apply andb_false_iff in Hpre as [H|H]; apply String.eqb_neq in H; auto.
  - unfold matchingCutoff, exact_cutoff. now rewrite Hfind.
Qed.

Lemma own_record_before_fallback_witness :
  let ec_100 := cutoff_record 100 "EC" (JStr "80.25") JUndefined in
  let this := mkSession None [s2] [cs_100; ec_100] courses in
  exists pre c post,
    cutoffData this = pre ++ c :: post
    /\ same_college s2 c
    /\ CutoffData.brc c = SeatData.branCode s2
    /\ (forall c', In c' pre ->
                   ~ (same_college s2 c'
                      /\ CutoffData.brc c' = SeatData.branCode s2))
    /\ matchingCutoff this s2 = Some c.
Proof.
  intros ec_100 this.
  apply (own_record_before_fallback this s2).
  exists ec_100. split; [right; now left|]. split; reflexivity.
Defined.

(** X22. [topPrefDist] and [minCutoff] only reorder the result: with other
    top districts or another threshold the selection list is a rearrangement
    of the same ids. *)
Theorem priority_only_reorders (this : Session)
    (districtChoices topPrefDist topPrefDist' : list string)
    (minCutoff minCutoff' : number) (category : string) :
  Permutation
    (selections (generateSelectionPayload this districtChoices topPrefDist
                                          minCutoff category))
    (selections (generateSelectionPayload this districtChoices topPrefDist'
                                          minCutoff' category)).
Proof.
  rewrite !payload_selections. apply Permutation_map.
  rewrite !finalSorted_permutation. reflexivity.
Qed.






Section Available.

Import Availability.

Variable this : Session.
Variable category : string.

Lemma candidate_has_availability (seat : SeatData.t) (v : ValidSelection) :
  In category categories ->
  candidate this category seat = Some v ->
  has_availability seat = true.
Proof.
  intros Hcat Hc.
  apply candidate_inv in Hc as (_ & (d & Hd & Hpos) & _).
  unfold has_availability, positive.
  simpl in Hcat.
  destruct Hcat as [<-|[<-|[<-|[<-|[<-|[<-|[<-|[]]]]]]]];
    change (SeatData.get seat _) with (SeatData.OC seat) in Hd
    || change (SeatData.get seat _) with (SeatData.BC seat) in Hd
    || change (SeatData.get seat _) with (SeatData.BCM seat) in Hd
    || change (SeatData.get seat _) with (SeatData.MBC seat) in Hd
    || change (SeatData.get seat _) with (SeatData.SC seat) in Hd
    || change (SeatData.get seat _) with (SeatData.SCA seat) in Hd
    || change (SeatData.get seat _) with (SeatData.ST seat) in Hd;
    rewrite Hd; simpl; rewrite Hpos; rewrite ?orb_true_r; reflexivity.
Qed.

Lemma candidates_among_available (seats : list SeatData.t) :
  In category categories ->
  List.length (candidates this category seats) <= availableSeats seats.
Proof.
  intros Hcat. unfold availableSeats.
  induction seats as [|seat seats IH]; simpl; [lia|].
  rewrite length_app.
  destruct (candidate this category seat) as [v|] eqn:Hc; simpl.
  - rewrite (candidate_has_availability seat v Hcat Hc). simpl. lia.
  - destruct (has_availability seat); simpl; lia.
Qed.

(** X13. For each of the seven categories, the ranking selects no more
    seats than the fetch reports as having availability. *)
Theorem selections_within_available_seats
    (districtChoices topPrefDist : list string) (minCutoff : number) :
  In category categories ->
  List.length (selections (generateSelectionPayload this districtChoices
                             topPrefDist minCutoff category))
  <= availableSeats (seatMatrix this).
Proof.
  intros Hcat. rewrite payload_selections, length_map.
  rewrite (Permutation_length
             (finalSorted_permutation this districtChoices topPrefDist
                                      minCutoff category)).
  etransitivity; [apply filter_length_le|].
  now apply candidates_among_available.
Qed.

End Available.

Lemma selections_within_available_seats_witness :
  List.length (selections (generateSelectionPayload with_unmatched ["Chennai"]
                             [] (threshold 85) "MBC"))
  <= Availability.availableSeats (seatMatrix with_unmatched).
Proof.
  apply (selections_within_available_seats with_unmatched "MBC" ["Chennai"] []
                                           (threshold 85)).
  simpl. tauto.
Defined.

End RankingMore.

(** ** The handlers: what they return, throw and leave in place *)

Module ServerMore.

Import Ranker RankerFacts Server Calls Scenario.




Lemma handleLogin_returns (answer : Answer LoginResponse) (s : Session) :
  exists reply, fst (handleLogin answer s) = Return reply.
Proof.
  unfold handleLogin, try_catch, bind, await, assign_sessionId, throw, ret.
  destruct answer as [message|data]; simpl; [eauto|].
  destruct (negb (String.eqb (login_sessionId data) "")); simpl; eauto.
Qed.

(** X15. [handleLogin] never throws.  A login that fails, by an error of the
    request or by an answer without session id, leaves the session as it
    was, so a session that was logged in stays logged in; a login that
    succeeds stores the session id of the answer. *)
Theorem failed_login_keeps_the_session (answer : Answer LoginResponse)
    (s : Session) :
  exists reply,
    fst (handleLogin answer s) = Return reply
    /\ match answer with
       | inl message =>
           reply = LoginFailed (Err message) /\ snd (handleLogin answer s) = s
       | inr data =>
           if String.eqb (login_sessionId data) ""
           then reply = LoginFailed (Err "Invalid login credentials")
                /\ snd (handleLogin answer s) = s
           else reply = LoginSucceeded (name data) (login_sessionId data)
                /\ sessionId (snd (handleLogin answer s))
                   = Some (login_sessionId data)
       end.
Proof.
  unfold handleLogin, try_catch, bind, await, assign_sessionId, throw, ret.
  destruct answer as [message|data]; simpl; [eauto|].
  destruct (String.eqb (login_sessionId data) ""); simpl; eauto.
Qed.

(** X16. When the session is logged in and the portal answers with seat
    records, the seat matrix is replaced by them whether or not the copy
    to the file could be written: when the write fails the reply reports a
    failure and the new seat matrix stays.  When the request itself fails
    the seat matrix is kept. *)
Theorem seat_matrix_replaced_before_the_file_is_written
    (answer : Answer (list SeatData.t)) (written : Answer unit) (s : Session) :
  not_logged_in s = false ->
  let result := handleGetAvailableSeats answer written s in
  match answer with
  | inr data =>
      seatMatrix (snd result) = data
      /\ match written with
         | inr _ => fst result = Return (SeatsFetched (List.length data))
         | inl message => fst result = Return (SeatsFailed (Err message))
         end
  | inl message =>
      snd result = s /\ fst result = Return (SeatsFailed (Err message))
  end.
Proof.
  intros Hlog.
  unfold handleGetAvailableSeats, try_catch, bind, this, await,
    assign_seatMatrix, throw, ret.
  rewrite Hlog.
  destruct answer as [message|data]; simpl; [auto|].
  destruct written as [message|[]]; simpl; auto.
Qed.

Lemma seat_matrix_replaced_before_the_file_is_written_witness :
  let s := mkSession (Some "abc123") [s1] [] [] in
  seatMatrix (snd (handleGetAvailableSeats (inr [m1; s1]) (inl "EACCES") s))
  = [m1; s1]
  /\ fst (handleGetAvailableSeats (inr [m1; s1]) (inl "EACCES") s)
     = Return (SeatsFailed (Err "EACCES")).
Proof.
  intros s.
  apply (seat_matrix_replaced_before_the_file_is_written
           (inr [m1; s1]) (inl "EACCES") s).
  reflexivity.
Defined.

(** X17. The fetch of the seats and the submission need a login: while the
    session has no session id they throw "Not logged in", whatever the
    portal would answer, and leave the session as it was; right after a
    login that succeeded they do not throw. *)
Theorem login_unlocks_fetch_and_submit (s : Session) :
  (not_logged_in s = true ->
   forall answer written selections submitted,
     handleGetAvailableSeats answer written s
     = (Throw (Err "Not logged in. Please login first."), s)
     /\ handleSubmitChoices selections submitted s
        = (Throw (Err "Not logged in. Please login first."), s))
  /\ forall email password data,
       login_sessionId data <> "" ->
       let s' := after s (login (Some (JStr email, JStr password)) (inr data)) in
       forall answer written selections submitted,
         (exists reply,
             fst (callTool (get_available_seats answer written) s')
             = Return reply)
         /\ (exists reply,
                fst (callTool (submit_choices (Some (StringArray selections))
                                              submitted) s')
                = Return reply).
Proof.
  split.
  - intros Hlog answer written selections submitted.
    unfold handleGetAvailableSeats, handleSubmitChoices, bind, this, throw.
    now rewrite Hlog.
  - intros email password data Hid s' answer written selections submitted.
    assert (Hlog : not_logged_in s' = false).
    { unfold s', after, callTool, handleLogin, try_catch, bind, await,
        assign_sessionId, throw, ret, not_logged_in. simpl.
      apply String.eqb_neq in Hid. rewrite Hid. simpl. exact Hid. }
    unfold callTool, handleGetAvailableSeats, handleSubmitChoices, try_catch,
      bind, this, await, assign_seatMatrix, throw, ret.
    rewrite Hlog. split.
    + destruct answer as [m|d]; simpl; [eauto|].
      destruct written as [m|[]]; simpl; eauto.
    + destruct submitted as [m|[]]; simpl; eauto.
Qed.

Lemma login_unlocks_fetch_and_submit_witness :
  handleGetAvailableSeats (inr [s1]) (inr tt) Calls.fresh
  = (Throw (Err "Not logged in. Please login first."), Calls.fresh)
  /\ handleSubmitChoices ["s1"] (inr tt) Calls.fresh
     = (Throw (Err "Not logged in. Please login first."), Calls.fresh).
Proof.
  apply (login_unlocks_fetch_and_submit Calls.fresh). reflexivity.
Defined.




(** X20. Whatever a tool throws reaches the caller as an InternalError that
    names the tool: the InvalidParams of a call without its arguments and
    the MethodNotFound of an unknown tool are wrapped as well. *)
Theorem every_error_becomes_internal (r : Request) (s : Session) (e : Error) :
  fst (callTool r s) = Throw e ->
  exists cause, e = InternalError (tool_name r) cause
                /\ forall tool cause', cause <> InternalError tool cause'.
Proof.
  unfold callTool, try_catch.
  match goal with
  | |- context [match ?m s with _ => _ end] => destruct (m s) as [[reply|e0] s'] eqn:E
  end; simpl; [discriminate|].
  intros [= <-]. exists e0. split; [reflexivity|].
  intros tool cause' ->.
  destruct r as [args answer|answer written|file|file|args|args answer| |name].
  - destruct args as [[[| | | |email] [| | | |password]]|];
      try (injection E as E _; discriminate).
    destruct (handleLogin_returns answer s) as [reply H].
    rewrite E in H. discriminate.
  - unfold handleGetAvailableSeats, try_catch, bind, this, await,
      assign_seatMatrix, throw, ret in E.
    destruct (not_logged_in s); [injection E as E _; discriminate|].
    destruct answer as [m|d]; simpl in E; [discriminate|].
    destruct written as [m|[]]; discriminate.
  - destruct file; discriminate.
  - destruct file; discriminate.
  - destruct args as [args|]; [|injection E as E _; discriminate].
    unfold handleGenerateChoices, bind, this, throw, ret in E.
    repeat match type of E with
           | context [if ?b then _ else _] => destruct b
           end; injection E as E _; discriminate.
  - destruct args as [[|v|selections]|];
      try (injection E as E _; discriminate).
    unfold handleSubmitChoices, try_catch, bind, this, await, throw, ret in E.
    destruct (not_logged_in s); [injection E as E _; discriminate|].
    destruct answer as [m|[]]; discriminate.
  - discriminate.
  - injection E as E _. discriminate.
Qed.

Lemma every_error_becomes_internal_witness :
  exists cause,
    InternalError "get_weather" (MethodNotFound "get_weather")
    = InternalError (tool_name (unknown_tool "get_weather")) cause
    /\ forall tool cause', cause <> InternalError tool cause'.
Proof.
  apply (every_error_becomes_internal (unknown_tool "get_weather") Calls.fresh).
  reflexivity.
Defined.





End ServerMore.
